(** * StartupManager: a shallow embedding of [StartupManager.py]

    The program registers an application with the "run at login" mechanism
    of the host: a shortcut in the Startup folder on Windows, a LaunchAgents
    property list on macOS, an autostart desktop entry on Linux.

    Everything the class does is an effect on the host, so the embedding is
    an exception-and-state monad over an explicit [world] (files,
    directories, loaded agents, standard output, and the log of operating
    system calls), run in an [env] that fixes what the host is: its
    [platform.system()] string, its [os.path] module, the home directory,
    and which operating-system calls fail there. *)

From Stdlib Require Import ZArith Ascii String List Lia.
From stdpp Require Import gmap strings list fin_maps pretty.

Local Open Scope Z_scope.

(** ** Strings *)

Definition chr (n : nat) : string := String (ascii_of_nat n) EmptyString.

(** Line feed and double quote, which the string literals of the source
    contain. *)
Definition LF : string := chr 10.
Definition DQ : string := chr 34.

Definition is_char (c d : ascii) : bool := Ascii.eqb c d.

Fixpoint str_forall (P : ascii -> bool) (s : string) : bool :=
  match s with
  | EmptyString => true
  | String c s' => P c && str_forall P s'
  end.

(** [s.startswith(c)] and [s.endswith(c)] for a one-character [c]. *)
Definition startswith (c : ascii) (s : string) : bool :=
  match s with
  | String a _ => is_char a c
  | EmptyString => false
  end.

Fixpoint endswith (c : ascii) (s : string) : bool :=
  match s with
  | EmptyString => false
  | String a EmptyString => is_char a c
  | String _ s' => endswith c s'
  end.

(** [s.split(c)] of Python: the fields between the occurrences of [c];
    never the empty list. *)
Fixpoint split_on (c : ascii) (s : string) : list string :=
  match s with
  | EmptyString => [EmptyString]
  | String a s' =>
      if is_char a c then EmptyString :: split_on c s'
      else match split_on c s' with
           | [] => [String a EmptyString]
           | h :: t => String a h :: t
           end
  end.

(** [sep.join(l)]. *)
Fixpoint str_join (sep : string) (l : list string) : string :=
  match l with
  | [] => ""
  | [x] => x
  | x :: l' => x +:+ sep +:+ str_join sep l'
  end.

(** ** The [os.path] module

    [os.path] is [posixpath] or [ntpath] according to the host; the class
    only reaches it through [os.path.abspath] and through the [/] of
    [pathlib], so the host is given by the three functions [abspath] is
    made of. Paths are the strings [str(path)] gives. *)

Record os_path := {
  op_isabs : string -> bool;
  op_join : string -> string -> string;
  op_normpath : string -> string
}.

Module posixpath.

Definition sep : ascii := "/"%char.

Definition isabs (p : string) : bool := startswith sep p.

Definition join (a b : string) : string :=
  if startswith sep b then b
  else if (String.eqb a "" || endswith sep a)%bool then a +:+ b
  else a +:+ "/" +:+ b.

(** The loop of [normpath] over the components; [new_comps] is kept
    reversed, so that its last element is the head. *)
Fixpoint norm_comps (initial_slashes : bool) (comps new_comps : list string)
  : list string :=
  match comps with
  | [] => rev new_comps
  | comp :: rest =>
      if (String.eqb comp "" || String.eqb comp ".")%bool
      then norm_comps initial_slashes rest new_comps
      else if (negb (String.eqb comp "..")
               || (negb initial_slashes && bool_decide (new_comps = []))
               || match new_comps with
                  | last :: _ => String.eqb last ".."
                  | [] => false
                  end)%bool
      then norm_comps initial_slashes rest (comp :: new_comps)
      else norm_comps initial_slashes rest (tail new_comps)
  end.

Definition normpath (path : string) : string :=
  if String.eqb path "" then "."
  else
    let initial_slashes : nat :=
      if startswith sep path then
        if (String.prefix "//" path && negb (String.prefix "///" path))%bool
        then 2%nat else 1%nat
      else 0%nat in
    let comps := norm_comps (negb (Nat.eqb initial_slashes 0))
                   (split_on sep path) [] in
    let path' :=
      str_join "" (replicate initial_slashes "/") +:+ str_join "/" comps in
    if String.eqb path' "" then "." else path'.

Definition module : os_path :=
  {| op_isabs := isabs; op_join := join; op_normpath := normpath |}.

End posixpath.

(** ** Exceptions

    The exceptions the class meets. [OSError] stands for the class and its
    subclasses as the operating-system calls raise them (a missing
    program, a permission refused, a read-only volume); [FileNotFoundError]
    is the one [__init__] raises itself, and [ValueError] what [print]
    raises on a stream that is closed ([UnicodeEncodeError], raised for a
    character the stream cannot encode, is a subclass of it). The
    exceptions that are no [Exception] ([KeyboardInterrupt], [SystemExit])
    reach the program from outside its calls, and are not in the model. *)

Inductive exn :=
| OSError (msg : string)
| FileNotFoundError (msg : string)
| NotImplementedError (msg : string)
| RuntimeError (msg : string)
| CalledProcessError (cmd : list string) (returncode : Z)
| ValueError (msg : string).

(** [isinstance(e, Exception)]: each of these classes derives from
    [Exception], which is what [except Exception] tests. *)
Definition is_Exception (e : exn) : bool :=
  match e with
  | OSError _ => true
  | FileNotFoundError _ => true
  | NotImplementedError _ => true
  | RuntimeError _ => true
  | CalledProcessError _ _ => true
  | ValueError _ => true
  end.

(** An argument list as [CalledProcessError] shows it, each argument
    between quotes. (Python's own rendering differs in the details: it
    escapes inside the strings, and shows an argument that is a [Path] as
    [PosixPath('...')].) *)
Definition repr_cmd (cmd : list string) : string :=
  "[" +:+ str_join ", " (map (fun a => "'" +:+ a +:+ "'") cmd) +:+ "]".

(** [str(e)], which the f-strings of the handlers print: the message of
    the exception, and for [CalledProcessError] a sentence with the
    command and the exit status. That sentence is not Python's to the
    letter (see [repr_cmd]; a negative status is reported there as the
    signal that ended the program), and no property below says what it
    is. *)
Definition exn_str (e : exn) : string :=
  match e with
  | OSError msg => msg
  | FileNotFoundError msg => msg
  | NotImplementedError msg => msg
  | RuntimeError msg => msg
  | CalledProcessError cmd code =>
      "Command '" +:+ repr_cmd cmd +:+ "' returned non-zero exit status "
      +:+ pretty code +:+ "."
  | ValueError msg => msg
  end.

(** ** The host *)

(** The operating-system calls the class makes. *)
Inductive syscall :=
| Makedirs (p : string)              (* os.makedirs(p, exist_ok=True) *)
| Stat (p : string)                  (* os.path.exists(p), Path.exists() *)
| OpenW (p : string)                 (* open(p, 'w') *)
| Write (p : string) (data : string) (* f.write(data), and the close *)
| Chmod (p : string) (mode : Z)      (* os.chmod(p, mode) *)
| Remove (p : string)                (* os.remove(p) *)
| Spawn (argv : list string).        (* subprocess.run(argv, check=True, ...) *)

(** What the host is, and stays, while the manager runs. [e_fault] is the
    error a call meets on this host, if any (no permission, no such
    program, a full disk); [e_exit] the exit status of an external program
    that could be started; [e_wsh] what the shell-automation host makes of
    a script: the shortcut file it saves and the target it stores in it. *)
Record env := {
  e_system : string;           (* platform.system() *)
  e_path : os_path;            (* os.path *)
  e_cwd : string;              (* os.getcwd() *)
  e_home : option string;      (* Path.home(), when it can be determined *)
  e_appdata : option string;   (* the APPDATA variable *)
  e_umask : Z;
  e_fault : syscall -> option string;
  e_exit : list string -> Z;
  e_wsh : string -> option (string * string)
}.

(** [os.path.abspath]. *)
Definition abspath (e : env) (path : string) : string :=
  op_normpath (e_path e)
    (if op_isabs (e_path e) path then path
     else op_join (e_path e) (e_cwd e) path).

(** The [/] of [pathlib], on the strings of the paths (without the
    collapsing of redundant separators [pathlib] does on top). *)
Definition path_div (e : env) (a b : string) : string := op_join (e_path e) a b.

(** ** The world *)

Inductive fbody :=
| Text (s : string)           (* a text file *)
| Shortcut (target : string). (* a shell link *)

Record file := { f_body : fbody; f_mode : Z }.

Record world := {
  files : gmap string file;  (* the regular files, by path *)
  dirs : gset string;        (* the directories *)
  loaded : gset string;      (* the agent descriptors launchd has loaded *)
  stdout : list string;      (* the lines printed *)
  trace : list syscall       (* the calls made, oldest first *)
}.

Definition with_files (fs : gmap string file) (w : world) : world :=
  {| files := fs; dirs := dirs w; loaded := loaded w;
     stdout := stdout w; trace := trace w |}.

Definition with_dirs (ds : gset string) (w : world) : world :=
  {| files := files w; dirs := ds; loaded := loaded w;
     stdout := stdout w; trace := trace w |}.

Definition with_loaded (ls : gset string) (w : world) : world :=
  {| files := files w; dirs := dirs w; loaded := ls;
     stdout := stdout w; trace := trace w |}.

Definition log (c : syscall) (w : world) : world :=
  {| files := files w; dirs := dirs w; loaded := loaded w;
     stdout := stdout w; trace := trace w ++ [c] |}.

(** Storing [body] at [p]: an existing file keeps its mode, a new one gets
    [0o666 & ~umask]. *)
Definition store (e : env) (p : string) (body : fbody) (w : world) : world :=
  let mode := match files w !! p with
              | Some f => f_mode f
              | None => Z.ldiff 438 (e_umask e)
              end in
  with_files (<[p := {| f_body := body; f_mode := mode |}]> (files w)) w.

Definition path_present (p : string) (w : world) : bool :=
  bool_decide (is_Some (files w !! p)) || bool_decide (p ∈ dirs w).

(** ** The monad: a result or an exception, and the world after *)

Inductive result (A : Type) :=
| Return (a : A)
| Raise (ex : exn).
Arguments Return {A} a.
Arguments Raise {A} ex.

Definition M (A : Type) : Type := world -> result A * world.

Definition ret {A} (a : A) : M A := fun w => (Return a, w).

Definition raise {A} (ex : exn) : M A := fun w => (Raise ex, w).

Definition bind {A B} (c : M A) (k : A -> M B) : M B :=
  fun w => match c w with
           | (Return a, w') => k a w'
           | (Raise ex, w') => (Raise ex, w')
           end.

Notation "x <- c ;; k" := (bind c (fun x => k))
  (at level 100, k at level 200, c at next level, right associativity).
Notation "c ;;; k" := (bind c (fun _ => k))
  (at level 100, k at level 200, right associativity).

(** [try: body except Exception as e: handler(e)]. *)
Definition try_except {A} (body : M A) (handler : exn -> M A) : M A :=
  fun w => match body w with
           | (Return a, w') => (Return a, w')
           | (Raise ex, w') =>
               if is_Exception ex then handler ex w' else (Raise ex, w')
           end.

(** [print(line)] on a [sys.stdout] that takes the line. *)
Definition print (line : string) : M unit :=
  fun w => (Return tt,
            {| files := files w; dirs := dirs w; loaded := loaded w;
               stdout := stdout w ++ [line]; trace := trace w |}).

(** [print(line)] on any [sys.stdout]: [out line] is the exception the
    stream raises for the line, if it raises one (a [ValueError] when it
    is closed or cannot encode the line, an [OSError] when the pipe it
    writes to is broken). *)
Definition print_on (out : string -> option exn) (line : string) : M unit :=
  match out line with
  | Some ex => raise ex
  | None => print line
  end.

(** ** The operating-system calls

    Every call is logged, then fails if the host says so, then does what
    the state of the file system allows. *)

Definition call {A} (e : env) (c : syscall) (k : M A) : M A :=
  fun w => match e_fault e c with
           | Some msg => (Raise (OSError msg), log c w)
           | None => k (log c w)
           end.

(** [os.makedirs(p, exist_ok=True)]: fine when the directory is there,
    an error when a regular file is. The call also makes the parents of
    [p] that are missing. Of the directories it makes, [dirs] records
    [p]: no call of the class names a parent of [p], and a parent that
    cannot be made (a regular file in the way, a permission refused) is a
    failure of the call on that host, [e_fault e (Makedirs p)]. *)
Definition os_makedirs (e : env) (p : string) : M unit :=
  call e (Makedirs p) (fun w =>
    match files w !! p with
    | Some _ => (Raise (OSError ("[Errno 17] File exists: '" +:+ p +:+ "'")), w)
    | None => (Return tt, with_dirs ({[p]} ∪ dirs w) w)
    end).

(** [os.path.exists(p)]: false when the [stat] fails, never an exception. *)
Definition os_path_exists (e : env) (p : string) : M bool :=
  fun w => match e_fault e (Stat p) with
           | Some _ => (Return false, log (Stat p) w)
           | None => (Return (path_present p (log (Stat p) w)), log (Stat p) w)
           end.

(** [Path.exists()]: an error of [stat] other than "no such file" is
    raised. *)
Definition Path_exists (e : env) (p : string) : M bool :=
  call e (Stat p) (fun w => (Return (path_present p w), w)).

(** [with open(p, 'w') as f: f.write(data)]. *)
Definition open_w (e : env) (p : string) : M unit :=
  call e (OpenW p) (fun w =>
    if bool_decide (p ∈ dirs w)
    then (Raise (OSError ("[Errno 21] Is a directory: '" +:+ p +:+ "'")), w)
    else (Return tt, store e p (Text "") w)).

Definition f_write (e : env) (p data : string) : M unit :=
  call e (Write p data) (fun w => (Return tt, store e p (Text data) w)).

Definition write_file (e : env) (p data : string) : M unit :=
  open_w e p ;;; f_write e p data.

(** [os.chmod(p, mode)]. *)
Definition os_chmod (e : env) (p : string) (mode : Z) : M unit :=
  call e (Chmod p mode) (fun w =>
    match files w !! p with
    | Some f =>
        (Return tt,
         with_files (<[p := {| f_body := f_body f; f_mode := mode |}]> (files w)) w)
    | None =>
        if bool_decide (p ∈ dirs w) then (Return tt, w)
        else (Raise (OSError ("[Errno 2] No such file or directory: '"
                              +:+ p +:+ "'")), w)
    end).

(** [os.remove(p)]. *)
Definition os_remove (e : env) (p : string) : M unit :=
  call e (Remove p) (fun w =>
    match files w !! p with
    | Some _ => (Return tt, with_files (delete p (files w)) w)
    | None =>
        if bool_decide (p ∈ dirs w)
        then (Raise (OSError ("[Errno 21] Is a directory: '" +:+ p +:+ "'")), w)
        else (Raise (OSError ("[Errno 2] No such file or directory: '"
                              +:+ p +:+ "'")), w)
    end).

(** What a program that ran to exit status 0 has done: [launchctl] has
    loaded or unloaded the descriptor, the PowerShell host has saved the
    shortcut it read in the script. *)
Definition proc_effect (e : env) (argv : list string) (w : world) : world :=
  match argv with
  | [prog; verb; arg] =>
      if (String.eqb prog "launchctl" && String.eqb verb "load")%bool
      then with_loaded ({[arg]} ∪ loaded w) w
      else if (String.eqb prog "launchctl" && String.eqb verb "unload")%bool
      then with_loaded (loaded w ∖ {[arg]}) w
      else if (String.eqb prog "powershell" && String.eqb verb "-Command")%bool
      then match e_wsh e arg with
           | Some (lnk, target) => store e lnk (Shortcut target) w
           | None => w
           end
      else w
  | _ => w
  end.

(** [subprocess.run(argv, check=True, capture_output=True)]. *)
Definition subprocess_run (e : env) (argv : list string) : M unit :=
  call e (Spawn argv) (fun w =>
    let returncode := e_exit e argv in
    if returncode =? 0 then (Return tt, proc_effect e argv w)
    else (Raise (CalledProcessError argv returncode), w)).

(** [Path.home()]. *)
Definition Path_home (e : env) : M string :=
  match e_home e with
  | Some h => ret h
  | None => raise (RuntimeError "Could not determine home directory.")
  end.

(** ** The class *)

Record StartupManager := {
  app_name : string;
  app_path : string;
  system : string
}.

Section Manager.

Variable e : env.

Local Notation "a / b" := (path_div e a b).

(** [StartupManager(app_name, app_path)]. *)
Definition __init__ (app_name0 app_path0 : string) : M StartupManager :=
  let self := {| app_name := app_name0;
                 app_path := abspath e app_path0;
                 system := e_system e |} in
  found <- os_path_exists e (app_path self) ;;
  if negb found
  then raise (FileNotFoundError
                ("Application path not found: " +:+ app_path self))
  else ret self.

(** [os.path.expandvars] on the Startup folder of the source: the
    variable is replaced when it is set and left as it is otherwise. *)
Definition expandvars_startup : string :=
  match e_appdata e with
  | Some v => v
  | None => "%APPDATA%"
  end +:+ "\Microsoft\Windows\Start Menu\Programs\Startup".

Definition _get_startup_location (self : StartupManager) : M string :=
  if String.eqb (system self) "Windows" then
    let startup_path := expandvars_startup in
    ret startup_path
  else if String.eqb (system self) "Darwin" then
    home <- Path_home e ;;
    let launch_agents := home / "Library" / "LaunchAgents" in
    os_makedirs e launch_agents ;;;
    let plist_path := launch_agents / (app_name self +:+ ".plist") in
    ret plist_path
  else if String.eqb (system self) "Linux" then
    home <- Path_home e ;;
    let autostart_dir := home / ".config" / "autostart" in
    os_makedirs e autostart_dir ;;;
    let desktop_path := autostart_dir / (app_name self +:+ ".desktop") in
    ret desktop_path
  else
    raise (NotImplementedError
             ("Unsupported operating system: " +:+ system self)).

(** [None] is the [None] Python returns when no branch does. *)
Definition is_enabled (self : StartupManager) : M (option bool) :=
  startup_location <- _get_startup_location self ;;
  if String.eqb (system self) "Windows" then
    let shortcut_path := startup_location / (app_name self +:+ ".lnk") in
    b <- Path_exists e shortcut_path ;; ret (Some b)
  else if String.eqb (system self) "Darwin" then
    b <- Path_exists e startup_location ;; ret (Some b)
  else if String.eqb (system self) "Linux" then
    b <- Path_exists e startup_location ;; ret (Some b)
  else ret None.

(** The three f-strings of [enable]. *)
Definition ps_command (shortcut_path : string) (self : StartupManager)
  : string :=
  LF +:+
  "                $WshShell = New-Object -comObject WScript.Shell" +:+ LF +:+
  "                $Shortcut = $WshShell.CreateShortcut('" +:+ shortcut_path
    +:+ "')" +:+ LF +:+
  "                $Shortcut.TargetPath = '" +:+ app_path self +:+ "'" +:+ LF +:+
  "                $Shortcut.Save()" +:+ LF +:+
  "                ".

Definition plist_content (self : StartupManager) : string :=
  "<?xml version=" +:+ DQ +:+ "1.0" +:+ DQ +:+ " encoding=" +:+ DQ +:+ "UTF-8"
    +:+ DQ +:+ "?>" +:+ LF +:+
  "<!DOCTYPE plist PUBLIC " +:+ DQ +:+ "-//Apple//DTD PLIST 1.0//EN" +:+ DQ
    +:+ " " +:+ DQ +:+ "http://www.apple.com/DTDs/PropertyList-1.0.dtd"
    +:+ DQ +:+ ">" +:+ LF +:+
  "<plist version=" +:+ DQ +:+ "1.0" +:+ DQ +:+ ">" +:+ LF +:+
  "<dict>" +:+ LF +:+
  "    <key>Label</key>" +:+ LF +:+
  "    <string>" +:+ app_name self +:+ "</string>" +:+ LF +:+
  "    <key>ProgramArguments</key>" +:+ LF +:+
  "    <array>" +:+ LF +:+
  "        <string>" +:+ app_path self +:+ "</string>" +:+ LF +:+
  "    </array>" +:+ LF +:+
  "    <key>RunAtLoad</key>" +:+ LF +:+
  "    <true/>" +:+ LF +:+
  "</dict>" +:+ LF +:+
  "</plist>" +:+ LF.

Definition desktop_content (self : StartupManager) : string :=
  "[Desktop Entry]" +:+ LF +:+
  "Type=Application" +:+ LF +:+
  "Name=" +:+ app_name self +:+ LF +:+
  "Exec=" +:+ app_path self +:+ LF +:+
  "Terminal=false" +:+ LF +:+
  "X-GNOME-Autostart-enabled=true" +:+ LF.

(** The body of the [try] of [enable]. *)
Definition enable_try (self : StartupManager) : M bool :=
  startup_location <- _get_startup_location self ;;
  (if String.eqb (system self) "Windows" then
     let shortcut_path := startup_location / (app_name self +:+ ".lnk") in
     subprocess_run e ["powershell"; "-Command";
                       ps_command shortcut_path self]
   else if String.eqb (system self) "Darwin" then
     write_file e startup_location (plist_content self) ;;;
     os_chmod e startup_location 420 ;;;
     subprocess_run e ["launchctl"; "load"; startup_location]
   else if String.eqb (system self) "Linux" then
     write_file e startup_location (desktop_content self) ;;;
     os_chmod e startup_location 493
   else ret tt) ;;;
  ret true.

Definition enable (self : StartupManager) : M bool :=
  try_except (enable_try self)
    (fun ex => print ("Error enabling startup: " +:+ exn_str ex) ;;; ret false).

(** The body of the [try] of [disable]. *)
Definition disable_try (self : StartupManager) : M bool :=
  startup_location <- _get_startup_location self ;;
  (if String.eqb (system self) "Darwin" then
     found <- Path_exists e startup_location ;;
     if found then
       subprocess_run e ["launchctl"; "unload"; startup_location] ;;;
       os_remove e startup_location
     else ret tt
   else if String.eqb (system self) "Windows" then
     let shortcut_path := startup_location / (app_name self +:+ ".lnk") in
     found <- Path_exists e shortcut_path ;;
     if found then os_remove e shortcut_path else ret tt
   else if String.eqb (system self) "Linux" then
     found <- Path_exists e startup_location ;;
     if found then os_remove e startup_location else ret tt
   else ret tt) ;;;
  ret true.

Definition disable (self : StartupManager) : M bool :=
  try_except (disable_try self)
    (fun ex => print ("Error disabling startup: " +:+ exn_str ex) ;;; ret false).

(** [enable] and [disable] above are the methods where [sys.stdout] takes
    what is printed. These are the methods on any [sys.stdout]: the
    [print] of the handler is outside the [try], so that what it raises
    nothing catches. *)
Definition enable_on (out : string -> option exn) (self : StartupManager)
  : M bool :=
  try_except (enable_try self)
    (fun ex => print_on out ("Error enabling startup: " +:+ exn_str ex) ;;;
               ret false).

Definition disable_on (out : string -> option exn) (self : StartupManager)
  : M bool :=
  try_except (disable_try self)
    (fun ex => print_on out ("Error disabling startup: " +:+ exn_str ex) ;;;
               ret false).

End Manager.

(** ** Where the artifact is *)

Definition supported (s : string) : Prop :=
  s = "Windows" \/ s = "Darwin" \/ s = "Linux".

(** The path [_get_startup_location] returns when it returns, as a
    function of the host alone. *)
Definition location (e : env) (self : StartupManager) : option string :=
  if String.eqb (system self) "Windows" then Some (expandvars_startup e)
  else if String.eqb (system self) "Darwin" then
    h ← e_home e;
    Some (path_div e (path_div e (path_div e h "Library") "LaunchAgents")
            (app_name self +:+ ".plist"))
  else if String.eqb (system self) "Linux" then
    h ← e_home e;
    Some (path_div e (path_div e (path_div e h ".config") "autostart")
            (app_name self +:+ ".desktop"))
  else None.

(** The directory [_get_startup_location] creates on the way. *)
Definition location_dir (e : env) (self : StartupManager) : option string :=
  if String.eqb (system self) "Windows" then None
  else if String.eqb (system self) "Darwin" then
    h ← e_home e;
    Some (path_div e (path_div e h "Library") "LaunchAgents")
  else if String.eqb (system self) "Linux" then
    h ← e_home e;
    Some (path_div e (path_div e h ".config") "autostart")
  else None.

(** The file whose presence [is_enabled] tests: the location itself, or
    the [.lnk] inside it on Windows. *)
Definition artifact (e : env) (self : StartupManager) : option string :=
  loc ← location e self;
  Some (if String.eqb (system self) "Windows"
        then path_div e loc (app_name self +:+ ".lnk")
        else loc).

(** What [enable] leaves in the artifact. *)
Definition artifact_body (self : StartupManager) : fbody :=
  if String.eqb (system self) "Windows" then Shortcut (app_path self)
  else if String.eqb (system self) "Darwin" then Text (plist_content self)
  else Text (desktop_content self).

(** The shell-automation host reads the script of [enable] as it is meant:
    it saves the shortcut at the path asked for, with the target asked
    for. *)
Definition host_saves_shortcut (e : env) (self : StartupManager) : Prop :=
  forall p, artifact e self = Some p ->
            e_wsh e (ps_command p self) = Some (p, app_path self).

(** ** Reading the artifacts back *)

(** A string without the character [c]. *)
Definition lacks (c : ascii) (s : string) : bool :=
  str_forall (fun a => negb (is_char a c)) s.

(** *** Desktop entries: the [key=value] lines of the content *)

(** [line.partition('=')] when the line has an [=]. *)
Fixpoint partition_eq (line : string) : option (string * string) :=
  match line with
  | EmptyString => None
  | String a rest =>
      if is_char a "="%char then Some (EmptyString, rest)
      else match partition_eq rest with
           | Some (k, v) => Some (String a k, v)
           | None => None
           end
  end.

Definition desktop_lines (content : string) : list string :=
  split_on (ascii_of_nat 10) content.

Definition desktop_entries (content : string) : list (string * string) :=
  omap partition_eq (desktop_lines content).

(** *** Property lists: a reader of the XML the artifact is written in

    Tags, text with the five predefined entities, and the elements
    [plist], [dict], [key], [string], [array], [true] and [false]: what a
    document of the class can hold. What else XML has (references to
    characters by number, comments, CDATA sections) is not read as XML
    reads it. *)

Inductive token :=
| TDecl (s : string)       (* <?...?> and <!...> *)
| TOpen (name : string)    (* <name ...> *)
| TClose (name : string)   (* </name> *)
| TEmpty (name : string)   (* <name/> *)
| TText (s : string).

Inductive lexst :=
| InText (acc : string)
| InTag (acc : string).

Definition snoc (s : string) (c : ascii) : string := s +:+ String c EmptyString.

Fixpoint upto_space (s : string) : string :=
  match s with
  | EmptyString => EmptyString
  | String a r => if Ascii.is_space a then EmptyString else String a (upto_space r)
  end.

Fixpoint drop_last (s : string) : string :=
  match s with
  | EmptyString => EmptyString
  | String _ EmptyString => EmptyString
  | String a r => String a (drop_last r)
  end.

Definition tag_token (acc : string) : token :=
  match acc with
  | String a r =>
      if (is_char a "?"%char || is_char a "!"%char)%bool then TDecl acc
      else if is_char a "/"%char then TClose r
      else if endswith "/"%char acc then TEmpty (upto_space (drop_last acc))
      else TOpen (upto_space acc)
  | EmptyString => TOpen EmptyString
  end.

(** One character of the document. The tokens are kept newest first;
    the text before a tag is a token even when it is empty. *)
Definition lex_step (st : lexst * list token) (c : ascii)
  : option (lexst * list token) :=
  match st with
  | (InText acc, toks) =>
      if is_char c "<"%char then Some (InTag "", TText acc :: toks)
      else Some (InText (snoc acc c), toks)
  | (InTag acc, toks) =>
      if is_char c ">"%char then Some (InText "", tag_token acc :: toks)
      else if is_char c "<"%char then None
      else Some (InTag (snoc acc c), toks)
  end.

Fixpoint lex_run (st : lexst * list token) (s : string)
  : option (lexst * list token) :=
  match s with
  | EmptyString => Some st
  | String c r =>
      match lex_step st c with
      | Some st' => lex_run st' r
      | None => None
      end
  end.

Definition lex (s : string) : option (list token) :=
  match lex_run (InText "", []) s with
  | Some (InText acc, toks) => Some (rev (TText acc :: toks))
  | _ => None
  end.

(** Text with its entities replaced; [pending] is the entity being read. *)
Definition entity (name : string) : option ascii :=
  if String.eqb name "lt" then Some "<"%char
  else if String.eqb name "gt" then Some ">"%char
  else if String.eqb name "amp" then Some "&"%char
  else if String.eqb name "quot" then Some (ascii_of_nat 34)
  else if String.eqb name "apos" then Some "'"%char
  else None.

Fixpoint decode_run (pending : option string) (out : string) (s : string)
  : option string :=
  match s with
  | EmptyString => match pending with None => Some out | Some _ => None end
  | String c r =>
      match pending with
      | None =>
          if is_char c "&"%char then decode_run (Some EmptyString) out r
          else decode_run None (snoc out c) r
      | Some acc =>
          if is_char c ";"%char then
            match entity acc with
            | Some ch => decode_run None (snoc out ch) r
            | None => None
            end
          else decode_run (Some (snoc acc c)) out r
      end
  end.

Definition decode (s : string) : option string := decode_run None "" s.

(** What XML 1.0 allows in the text of an element: no control character
    but tab, line feed and carriage return, and nowhere the three
    characters that end a CDATA section. *)
Definition xml_char (c : ascii) : bool :=
  (Nat.leb 32 (nat_of_ascii c) || Nat.eqb (nat_of_ascii c) 9
   || Nat.eqb (nat_of_ascii c) 10 || Nat.eqb (nat_of_ascii c) 13)%bool.

Fixpoint has_cdata_end (s : string) : bool :=
  match s with
  | EmptyString => false
  | String _ r => (String.prefix "]]>" s || has_cdata_end r)%bool
  end.

Definition chardata (s : string) : bool :=
  (str_forall xml_char s && negb (has_cdata_end s))%bool.

(** Every piece of text is checked, and its entities are replaced, before
    the elements are read. *)
Definition decode_token (t : token) : option token :=
  match t with
  | TText s => if chardata s then s' ← decode s; Some (TText s') else None
  | _ => Some t
  end.

#[local] Set Warnings "-register-all".
Inductive plist :=
| PString (s : string)
| PBool (b : bool)
| PArray (items : list plist)
| PDict (entries : list (string * plist)).

Definition is_blank (t : token) : bool :=
  match t with
  | TText s => str_forall Ascii.is_space s
  | _ => false
  end.

Fixpoint skip_blank (ts : list token) : list token :=
  match ts with
  | t :: r => if is_blank t then skip_blank r else ts
  | [] => []
  end.

(** The text of a [key] or [string] element, after its opening tag. *)
Definition parse_text (name : string) (ts : list token)
  : option (string * list token) :=
  match ts with
  | TText s :: TClose n :: r =>
      if String.eqb n name then Some (s, r) else None
  | _ => None
  end.

Fixpoint parse_value (fuel : nat) (ts : list token)
  : option (plist * list token) :=
  match fuel with
  | O => None
  | S fuel' =>
      match skip_blank ts with
      | TEmpty n :: r =>
          if String.eqb n "true" then Some (PBool true, r)
          else if String.eqb n "false" then Some (PBool false, r)
          else None
      | TOpen n :: r =>
          if String.eqb n "string" then
            '(s, r') ← parse_text "string" r; Some (PString s, r')
          else if String.eqb n "array" then
            '(items, r') ← parse_items fuel' r; Some (PArray items, r')
          else if String.eqb n "dict" then
            '(entries, r') ← parse_entries fuel' r; Some (PDict entries, r')
          else None
      | _ => None
      end
  end
with parse_items (fuel : nat) (ts : list token)
  : option (list plist * list token) :=
  match fuel with
  | O => None
  | S fuel' =>
      match skip_blank ts with
      | TClose n :: r => if String.eqb n "array" then Some ([], r) else None
      | ts' =>
          '(v, r) ← parse_value fuel' ts';
          '(vs, r') ← parse_items fuel' r;
          Some (v :: vs, r')
      end
  end
with parse_entries (fuel : nat) (ts : list token)
  : option (list (string * plist) * list token) :=
  match fuel with
  | O => None
  | S fuel' =>
      match skip_blank ts with
      | TClose n :: r => if String.eqb n "dict" then Some ([], r) else None
      | TOpen n :: r =>
          if String.eqb n "key" then
            '(k, r1) ← parse_text "key" r;
            '(v, r2) ← parse_value fuel' r1;
            '(kvs, r3) ← parse_entries fuel' r2;
            Some ((k, v) :: kvs, r3)
          else None
      | _ => None
      end
  end.

Fixpoint skip_prolog (ts : list token) : list token :=
  match ts with
  | TDecl _ :: r => skip_prolog r
  | t :: r => if is_blank t then skip_prolog r else ts
  | [] => []
  end.

Definition parse_tokens (ts : list token) : option plist :=
  match skip_prolog ts with
  | TOpen n :: r =>
      if String.eqb n "plist" then
        '(v, r') ← parse_value (length r) r;
        match skip_blank r' with
        | TClose n' :: r'' =>
            if (String.eqb n' "plist" && bool_decide (skip_blank r'' = []))%bool
            then Some v else None
        | _ => None
        end
      else None
  | _ => None
  end.

Definition parse_plist (content : string) : option plist :=
  raw ← lex content; ts ← mapM decode_token raw; parse_tokens ts.

(** Characters that stand for themselves in the text of an XML element:
    the printable ones of ASCII but [<], [&] and [>]. *)
Definition xml_plain_char (c : ascii) : bool :=
  (Nat.leb 32 (nat_of_ascii c) && Nat.leb (nat_of_ascii c) 126
   && negb (is_char c "<"%char) && negb (is_char c "&"%char)
   && negb (is_char c ">"%char))%bool.

Definition xml_plain (s : string) : bool := str_forall xml_plain_char s.

(** The literal parts of [plist_content], around the name and the path. *)
Definition plist_head : string :=
  "<?xml version=" +:+ DQ +:+ "1.0" +:+ DQ +:+ " encoding=" +:+ DQ +:+ "UTF-8"
    +:+ DQ +:+ "?>" +:+ LF +:+
  "<!DOCTYPE plist PUBLIC " +:+ DQ +:+ "-//Apple//DTD PLIST 1.0//EN" +:+ DQ
    +:+ " " +:+ DQ +:+ "http://www.apple.com/DTDs/PropertyList-1.0.dtd"
    +:+ DQ +:+ ">" +:+ LF +:+
  "<plist version=" +:+ DQ +:+ "1.0" +:+ DQ +:+ ">" +:+ LF +:+
  "<dict>" +:+ LF +:+
  "    <key>Label</key>" +:+ LF +:+
  "    <string>".

Definition plist_mid : string :=
  "</string>" +:+ LF +:+
  "    <key>ProgramArguments</key>" +:+ LF +:+
  "    <array>" +:+ LF +:+
  "        <string>".

Definition plist_tail : string :=
  "</string>" +:+ LF +:+
  "    </array>" +:+ LF +:+
  "    <key>RunAtLoad</key>" +:+ LF +:+
  "    <true/>" +:+ LF +:+
  "</dict>" +:+ LF +:+
  "</plist>" +:+ LF.

(** What the specification expects to read back. *)
Definition expected_plist (self : StartupManager) : plist :=
  PDict [("Label", PString (app_name self));
         ("ProgramArguments", PArray [PString (app_path self)]);
         ("RunAtLoad", PBool true)].

(** What the specification expects in the desktop entry. *)
Definition expected_entries (name exec : string) : list (string * string) :=
  [("Type", "Application"); ("Name", name); ("Exec", exec);
   ("Terminal", "false"); ("X-GNOME-Autostart-enabled", "true")].

(** [s] occurs in [t]. *)
Definition occurs_in (s t : string) : Prop :=
  exists pre post, t = pre +:+ s +:+ post.

(** ** Hosts and worlds to run the class on *)

Module Hosts.

Definition no_fault : syscall -> option string := fun _ => None.

Definition linux : env :=
  {| e_system := "Linux"; e_path := posixpath.module;
     e_cwd := "/usr/local/bin"; e_home := Some "/home/user";
     e_appdata := None; e_umask := 18;
     e_fault := no_fault; e_exit := fun _ => 0; e_wsh := fun _ => None |}.

(** A Linux host whose autostart directory cannot be written to. *)
Definition linux_readonly : env :=
  {| e_system := "Linux"; e_path := posixpath.module;
     e_cwd := "/usr/local/bin"; e_home := Some "/home/user";
     e_appdata := None; e_umask := 18;
     e_fault := fun c => match c with
                         | OpenW p => Some ("[Errno 13] Permission denied: '"
                                            +:+ p +:+ "'")
                         | _ => None
                         end;
     e_exit := fun _ => 0; e_wsh := fun _ => None |}.

Definition darwin : env :=
  {| e_system := "Darwin"; e_path := posixpath.module;
     e_cwd := "/usr/local/bin"; e_home := Some "/Users/user";
     e_appdata := None; e_umask := 18;
     e_fault := no_fault; e_exit := fun _ => 0; e_wsh := fun _ => None |}.



(** Enough of [ntpath] for paths on drive [C:] that are already
    normal. *)
Definition nt_like : os_path :=
  {| op_isabs := String.prefix "C:\";
     op_join := fun a b => a +:+ "\" +:+ b;
     op_normpath := fun p => p |}.

Definition sample : StartupManager :=
  {| app_name := "Sample"; app_path := "/usr/local/bin/sample";
     system := "Linux" |}.

Definition sample_darwin : StartupManager :=
  {| app_name := "Sample"; app_path := "/usr/local/bin/sample";
     system := "Darwin" |}.


(** A name with an ampersand in it. *)
Definition research : StartupManager :=
  {| app_name := "R&D"; app_path := "/usr/local/bin/sample";
     system := "Darwin" |}.

Definition sample_windows : StartupManager :=
  {| app_name := "Sample"; app_path := "C:\Program Files\Sample\sample.exe";
     system := "Windows" |}.

Definition sample_lnk : string :=
  "C:\Users\user\AppData\Roaming\Microsoft\Windows\Start Menu\Programs\Startup\Sample.lnk".

Definition windows : env :=
  {| e_system := "Windows"; e_path := nt_like;
     e_cwd := "C:\Users\user";
     e_home := Some "C:\Users\user";
     e_appdata := Some "C:\Users\user\AppData\Roaming"; e_umask := 0;
     e_fault := no_fault; e_exit := fun _ => 0;
     e_wsh := fun script =>
                if String.eqb script (ps_command sample_lnk sample_windows)
                then Some (sample_lnk, app_path sample_windows)
                else None |}.

Definition executable : file :=
  {| f_body := Text "#!/bin/sh"; f_mode := 493 |}.

(** A world with the executable and nothing of the manager's yet. *)
Definition fresh : world :=
  {| files := {[ "/usr/local/bin/sample" := executable ]};
     dirs := {[ "/usr/local/bin" ]};
     loaded := ∅; stdout := []; trace := [] |}.

Definition fresh_windows : world :=
  {| files := {[ "C:\Program Files\Sample\sample.exe" := executable ]};
     dirs := ∅; loaded := ∅; stdout := []; trace := [] |}.

(** A macOS world in which the agent is installed and loaded. *)
Definition installed_darwin : world :=
  {| files :=
       {[ "/usr/local/bin/sample" := executable;
          "/Users/user/Library/LaunchAgents/Sample.plist" :=
            {| f_body := Text (plist_content sample_darwin); f_mode := 420 |} ]};
     dirs := {[ "/usr/local/bin"; "/Users/user/Library/LaunchAgents" ]};
     loaded := {[ "/Users/user/Library/LaunchAgents/Sample.plist" ]};
     stdout := []; trace := [] |}.

End Hosts.

(** ** The statements of the specification, as it words them *)


(** "[is_enabled] is a pure read: it has no side effects, it does not
    change the file system." *)
Definition is_enabled_pure_read
  (e : env) (self : StartupManager) (w : world) : Prop :=
  files (snd (is_enabled e self w)) = files w /\
  dirs (snd (is_enabled e self w)) = dirs w.

(** "[enable()] followed by [is_enabled()] returns true." *)
Definition enable_then_enabled
  (e : env) (self : StartupManager) (w : world) : Prop :=
  fst (is_enabled e self (snd (enable e self w))) = Return (Some true).

(** The calls of [is_enabled]: the [os.makedirs] of the resolver, on the
    directory of the artifact, and the probe of the artifact. *)
Definition resolver_call (e : env) (self : StartupManager) (c : syscall)
  : Prop :=
  match c with
  | Makedirs d => location_dir e self = Some d
  | Stat p => artifact e self = Some p
  | _ => False
  end.

(** "[enable()] and [disable()] return a boolean, and never raise": said
    of a [sys.stdout] [out]. *)
Definition never_raise
  (out : string -> option exn) (e : env) (self : StartupManager) (w : world)
  : Prop :=
  (exists b w', enable_on e out self w = (Return b, w')) /\
  (exists b w', disable_on e out self w = (Return b, w')).

(** "[enable()] twice leaves one artifact at the resolved location, and
    the second call returns true." *)
Definition enable_twice_leaves_artifact
  (e : env) (self : StartupManager) (w : world) : Prop :=
  let w1 := snd (enable e self w) in
  fst (enable e self w1) = Return true /\
  exists p, artifact e self = Some p /\
            is_Some (files (snd (enable e self w1)) !! p).

(** The message an exception was made with, which is its [str]. (The
    [str] of a [CalledProcessError] is put together from its command and
    its exit status.) *)
Definition exn_message (ex : exn) : option string :=
  match ex with
  | OSError msg | FileNotFoundError msg | NotImplementedError msg
  | RuntimeError msg | ValueError msg => Some msg
  | CalledProcessError _ _ => None
  end.

(** How a method whose [try] has ended as [body] ends as [r], on the
    [sys.stdout] [out]. When the body has returned, the method returns
    [True] in the world the body left. When the body has raised [ex], the
    handler prints [label] and a text for [ex], the message of [ex] when
    it has one: if [out] takes the line, it is printed and the method
    returns [False]; if [out] raises, the method raises that, and nothing
    is printed. *)
Definition caught_and_reported
  (out : string -> option exn) (label : string)
  (body r : result bool * world) : Prop :=
  match body with
  | (Return _, w1) => r = (Return true, w1)
  | (Raise ex, w1) =>
      exists text,
        (forall msg, exn_message ex = Some msg -> text = msg) /\
        match out (label +:+ text) with
        | None => r = (Return false, snd (print (label +:+ text) w1))
        | Some ex' => r = (Raise ex', w1)
        end
  end.

(** A [sys.stdout] that is closed. *)
Definition closed_stdout (line : string) : option exn :=
  Some (ValueError "I/O operation on closed file.").

(** A [sys.stdout] that takes every line. *)
Definition open_stdout (line : string) : option exn := None.

(** ** The worlds the operations lead to *)

(** After [os.makedirs(d, exist_ok=True)] has returned. *)
Definition made (d : string) (w : world) : world :=
  with_dirs ({[d]} ∪ dirs w) (log (Makedirs d) w).

(** After [data] has been written to [p] and the mode of [p] set. *)
Definition wrote (p data : string) (mode : Z) (w : world) : world :=
  {| files := <[p := {| f_body := Text data; f_mode := mode |}]> (files w);
     dirs := dirs w; loaded := loaded w; stdout := stdout w;
     trace := trace w ++ [OpenW p; Write p data; Chmod p mode] |}.

(** What has to hold for the directory to be made and the file written:
    none of the calls fails on this host, no regular file is where the
    directory goes, and no directory where the file goes. *)
Definition can_install
  (e : env) (d p data : string) (mode : Z) (w : world) : Prop :=
  e_fault e (Makedirs d) = None /\ files w !! d = None /\
  (p ∉ ({[d]} ∪ dirs w : gset string)) /\
  e_fault e (OpenW p) = None /\ e_fault e (Write p data) = None /\
  e_fault e (Chmod p mode) = None.

(** What a successful [enable] has settled, going from [w] to [w1]: the
    artifact [p] holds the file [f], nothing else has changed among the
    files, and in any world with the files and directories of [w1] a
    further [enable] succeeds and leaves them as they are, and
    [is_enabled] answers yes once its probe goes through. *)
Definition enable_settled
  (e : env) (self : StartupManager) (w w1 : world) : Prop :=
  exists p f,
    artifact e self = Some p /\
    f_body f = artifact_body self /\
    files w1 = <[p := f]> (files w) /\
    (forall w', files w' = files w1 -> dirs w' = dirs w1 ->
       (exists w2, enable_try e self w' = (Return true, w2) /\
                   files w2 = files w1 /\ dirs w2 = dirs w1) /\
       (e_fault e (Stat p) = None ->
        exists w2, is_enabled e self w' = (Return (Some true), w2))).

(** ** The order of the calls *)

(** [c] makes the calls [l], in this order, when it returns, and the first
    few of them when it raises. *)
Definition runs {A} (c : M A) (l : list syscall) : Prop :=
  forall w,
    match c w with
    | (Return _, w1) => trace w1 = trace w ++ l
    | (Raise _, w1) => exists l', l' `prefix_of` l /\ trace w1 = trace w ++ l'
    end.

(** [c] makes the first few of the calls [l], in this order. *)
Definition within {A} (c : M A) (l : list syscall) : Prop :=
  forall w, exists l', l' `prefix_of` l /\ trace (snd (c w)) = trace w ++ l'.


(** "The property list, read back, gives the name, the path and
    [RunAtLoad]." *)
Definition plist_round_trips (self : StartupManager) : Prop :=
  parse_plist (plist_content self) = Some (expected_plist self).

(** "The desktop entry has the five lines, [Name] and [Exec] being the
    inputs of the constructor as they were given." *)
Definition desktop_entry_verbatim
  (e : env) (name path : string) (w : world) : Prop :=
  forall self w1, __init__ e name path w = (Return self, w1) ->
    desktop_entries (desktop_content self) = expected_entries name path.

(** ** What an operation leaves alone *)

(** Whatever [c] does from a world [w], the world it leaves is related to
    [w] by [R], and the value it returns, when it returns, satisfies
    [Q]. *)
Definition post {A} (c : M A) (Q : A -> Prop) (R : world -> world -> Prop)
  : Prop :=
  forall w, match c w with
            | (Return a, w') => Q a /\ R w w'
            | (Raise _, w') => R w w'
            end.

(** From [w] to [w'] no file but [p] has changed, no agent but [p] has
    been loaded or unloaded, and no directory has gone; a directory that
    has come is on the way to [d] (its path begins the path of [d]), and
    none has come when [d] was there. This is said so as to hold of the
    parents of [d] as well, which [os.makedirs] makes when they are
    missing. *)
Definition footprint (p d : option string) (w w' : world) : Prop :=
  (forall q, p <> Some q -> files w' !! q = files w !! q) /\
  (forall q, p <> Some q -> (q ∈ loaded w' <-> q ∈ loaded w)) /\
  (forall x, x ∈ dirs w -> x ∈ dirs w') /\
  (forall x, x ∈ dirs w' ->
             x ∈ dirs w \/ exists y, d = Some y /\ String.prefix x y = true) /\
  ((forall y, d = Some y -> y ∈ dirs w) -> dirs w' = dirs w).

(** From [w] to [w'] no file has been created or changed: each path holds
    what it held, or nothing. *)
Definition nothing_written (w w' : world) : Prop :=
  forall q, files w' !! q = files w !! q \/ files w' !! q = None.

(** From [w] to [w'] no agent has been loaded or unloaded. *)
Definition loaded_kept (w w' : world) : Prop := loaded w' = loaded w.





(** * Properties *)

(** ** The monad and the calls *)

Lemma is_Exception_all ex : is_Exception ex = true.
Proof. destruct ex; reflexivity. Qed.

Lemma try_except_return {A} (body : M A) handler w a w1 :
  body w = (Return a, w1) -> try_except body handler w = (Return a, w1).
Proof. unfold try_except. intros ->. reflexivity. Qed.


Lemma bind_ret_const {A B} (c : M A) (v : B) w b w1 :
  (c ;;; ret v) w = (Return b, w1) -> b = v.
Proof. unfold bind, ret. destruct (c w) as [[a|ex] w']; congruence. Qed.

Lemma enable_try_true e self w b w1 :
  enable_try e self w = (Return b, w1) -> b = true.
Proof.
  unfold enable_try. unfold bind at 1.
  destruct (_get_startup_location e self w) as [[loc|ex] w0]; [|discriminate].
  apply bind_ret_const.
Qed.

Lemma disable_try_true e self w b w1 :
  disable_try e self w = (Return b, w1) -> b = true.
Proof.
  unfold disable_try. unfold bind at 1.
  destruct (_get_startup_location e self w) as [[loc|ex] w0]; [|discriminate].
  apply bind_ret_const.
Qed.

Lemma exn_str_message ex msg : exn_message ex = Some msg -> exn_str ex = msg.
Proof. destruct ex; cbn; congruence. Qed.

Lemma print_on_takes out line :
  out line = None -> print_on out line = print line.
Proof. unfold print_on. intros ->. reflexivity. Qed.

Lemma print_on_raises out line ex w :
  out line = Some ex -> print_on out line w = (Raise ex, w).
Proof. unfold print_on. intros ->. reflexivity. Qed.

Lemma try_caught_and_reported out label (body : M bool) w :
  (forall b w1, body w = (Return b, w1) -> b = true) ->
  caught_and_reported out label (body w)
    (try_except body
       (fun ex => print_on out (label +:+ exn_str ex) ;;; ret false) w).
Proof.
  intros Htrue. unfold caught_and_reported, try_except.
  destruct (body w) as [[b|ex] w1] eqn:H.
  - rewrite (Htrue _ _ eq_refl). reflexivity.
  - rewrite is_Exception_all. exists (exn_str ex).
    split; [intros msg Hm; apply exn_str_message, Hm|].
    unfold bind. destruct (out (label +:+ exn_str ex)) as [ex'|] eqn:Ho.
    + rewrite (print_on_raises _ _ _ _ Ho). reflexivity.
    + rewrite (print_on_takes _ _ Ho). reflexivity.
Qed.

Lemma try_on_takes out label (body : M bool) w :
  (forall line, out line = None) ->
  try_except body
    (fun ex => print_on out (label +:+ exn_str ex) ;;; ret false) w
  = try_except body
      (fun ex => print (label +:+ exn_str ex) ;;; ret false) w.
Proof.
  intros Ho. unfold try_except. destruct (body w) as [[b|ex] w1]; [reflexivity|].
  destruct (is_Exception ex); [|reflexivity].
  rewrite (print_on_takes _ _ (Ho _)). reflexivity.
Qed.

Lemma try_print_returns label (body : M bool) w :
  exists b w',
    try_except body
      (fun ex => print (label +:+ exn_str ex) ;;; ret false) w = (Return b, w').
Proof.
  unfold try_except. destruct (body w) as [[b|ex] w1].
  - exists b, w1. reflexivity.
  - rewrite is_Exception_all. eexists _, _. reflexivity.
Qed.

(** C3, as the code has it. What the body of the [try] of [enable] or
    [disable] raises is caught: the handler prints ["Error enabling
    startup: "] or ["Error disabling startup: "] and the text of the
    exception, and the method returns [False]; when the body raises
    nothing the method returns [True]. The [print] of the handler is
    outside the [try]: what it raises on the [sys.stdout] at hand the
    method raises. So it is on a [sys.stdout] that takes every line that
    [enable] and [disable] always return a boolean. *)
Theorem enable_disable_catch_and_report
  (out : string -> option exn) (e : env) (self : StartupManager) (w : world) :
  caught_and_reported out "Error enabling startup: "
    (enable_try e self w) (enable_on e out self w) /\
  caught_and_reported out "Error disabling startup: "
    (disable_try e self w) (disable_on e out self w) /\
  ((forall line, out line = None) ->
   never_raise out e self w /\
   enable_on e out self w = enable e self w /\
   disable_on e out self w = disable e self w).
Proof.
  split; [|split].
  - apply try_caught_and_reported. intros b w1. apply enable_try_true.
  - apply try_caught_and_reported. intros b w1. apply disable_try_true.
  - intros Ho.
    assert (He : enable_on e out self w = enable e self w)
      by apply (try_on_takes _ _ _ _ Ho).
    assert (Hd : disable_on e out self w = disable e self w)
      by apply (try_on_takes _ _ _ _ Ho).
    split; [|split; assumption]. unfold never_raise. rewrite He, Hd.
    split; apply try_print_returns.
Qed.

(** Where the autostart directory cannot be written to and [sys.stdout]
    takes what is printed, [enable] returns false and the error is on
    [sys.stdout]. *)
Lemma enable_disable_catch_and_report_witness :
  never_raise open_stdout Hosts.linux_readonly Hosts.sample Hosts.fresh /\
  fst (enable_on Hosts.linux_readonly open_stdout Hosts.sample Hosts.fresh)
  = Return false.
Proof.
  destruct (enable_disable_catch_and_report open_stdout Hosts.linux_readonly
              Hosts.sample Hosts.fresh) as (_ & _ & H).
  destruct (H (fun _ => eq_refl)) as (Hn & _).
  split; [exact Hn|]. vm_compute. reflexivity.
Defined.

(** C3, as the specification words it, fails where [sys.stdout] is
    closed: when the autostart directory cannot be written to, the
    [print] of the handler raises [ValueError], and [enable] with it. *)
Lemma enable_raises_on_closed_stdout :
  fst (enable_on Hosts.linux_readonly closed_stdout Hosts.sample Hosts.fresh)
  = Raise (ValueError "I/O operation on closed file.") /\
  ~ never_raise closed_stdout Hosts.linux_readonly Hosts.sample Hosts.fresh.
Proof.
  assert (H : fst (enable_on Hosts.linux_readonly closed_stdout Hosts.sample
                     Hosts.fresh)
              = Raise (ValueError "I/O operation on closed file."))
    by (vm_compute; reflexivity).
  split; [exact H|]. intros [(b & w' & He) _]. rewrite He in H. discriminate H.
Qed.

(** ** The platform *)

Lemma init_eq e name path w :
  __init__ e name path w
  = (if match e_fault e (Stat (abspath e path)) with
        | Some _ => false
        | None => path_present (abspath e path) w
        end
     then Return {| app_name := name; app_path := abspath e path;
                    system := e_system e |}
     else Raise (FileNotFoundError
                   ("Application path not found: " +:+ abspath e path)),
     log (Stat (abspath e path)) w).
Proof.
  unfold __init__, bind, os_path_exists. cbn [app_path].
  destruct (e_fault e (Stat (abspath e path))); cbn.
  - reflexivity.
  - change (path_present (abspath e path) (log (Stat (abspath e path)) w))
      with (path_present (abspath e path) w).
    destruct (path_present (abspath e path) w); reflexivity.
Qed.





(** ** What each call does when it returns *)

Lemma bind_return_inv {A B} (c : M A) (k : A -> M B) w b w1 :
  bind c k w = (Return b, w1) ->
  exists a w0, c w = (Return a, w0) /\ k a w0 = (Return b, w1).
Proof.
  unfold bind. destruct (c w) as [[a|ex] w0]; [eauto|discriminate].
Qed.

Lemma bind_return {A B} (c : M A) (k : A -> M B) w a w0 :
  c w = (Return a, w0) -> bind c k w = k a w0.
Proof. unfold bind. intros ->. reflexivity. Qed.


Lemma call_return_inv {A} e c (k : M A) w a w1 :
  call e c k w = (Return a, w1) ->
  e_fault e c = None /\ k (log c w) = (Return a, w1).
Proof. unfold call. destruct (e_fault e c); [discriminate|auto]. Qed.

Lemma call_ok {A} e c (k : M A) w :
  e_fault e c = None -> call e c k w = k (log c w).
Proof. unfold call. intros ->. reflexivity. Qed.

Lemma os_makedirs_return_inv e p w u w1 :
  os_makedirs e p w = (Return u, w1) ->
  e_fault e (Makedirs p) = None /\ files w !! p = None /\
  w1 = with_dirs ({[p]} ∪ dirs w) (log (Makedirs p) w).
Proof.
  unfold os_makedirs. intros H. apply call_return_inv in H as [Hf H].
  cbn in H. destruct (files w !! p); [discriminate|].
  injection H as _ <-. auto.
Qed.

Lemma os_makedirs_ok e p w :
  e_fault e (Makedirs p) = None -> files w !! p = None ->
  os_makedirs e p w
  = (Return tt, with_dirs ({[p]} ∪ dirs w) (log (Makedirs p) w)).
Proof.
  intros Hf Hp. unfold os_makedirs. rewrite call_ok by exact Hf.
  cbn. rewrite Hp. reflexivity.
Qed.

(** Whatever [os.makedirs] does, the regular files, the loaded agents and
    the output are as before, and the log has grown by the one call. *)
Lemma os_makedirs_frame e p w r w1 :
  os_makedirs e p w = (r, w1) ->
  files w1 = files w /\ loaded w1 = loaded w /\ stdout w1 = stdout w /\
  trace w1 = trace w ++ [Makedirs p] /\
  (dirs w1 = dirs w \/ dirs w1 = {[p]} ∪ dirs w).
Proof.
  unfold os_makedirs, call.
  destruct (e_fault e (Makedirs p)); [intros [= _ <-]; cbn; auto 6|].
  cbn. destruct (files w !! p); intros [= _ <-]; cbn; auto 6.
Qed.

Lemma Path_exists_eq e p w :
  Path_exists e p w
  = (match e_fault e (Stat p) with
     | Some msg => Raise (OSError msg)
     | None => Return (path_present p w)
     end, log (Stat p) w).
Proof. unfold Path_exists, call. destruct (e_fault e (Stat p)); reflexivity. Qed.

Lemma open_w_return_inv e p w u w1 :
  open_w e p w = (Return u, w1) ->
  e_fault e (OpenW p) = None /\ (p ∉ dirs w) /\
  w1 = store e p (Text "") (log (OpenW p) w).
Proof.
  unfold open_w. intros H. apply call_return_inv in H as [Hf H].
  cbn in H. case_bool_decide; [discriminate|].
  injection H as _ <-. auto.
Qed.

Lemma open_w_ok e p w :
  e_fault e (OpenW p) = None -> p ∉ dirs w ->
  open_w e p w = (Return tt, store e p (Text "") (log (OpenW p) w)).
Proof.
  intros Hf Hp. unfold open_w. rewrite call_ok by exact Hf.
  cbn. rewrite bool_decide_eq_false_2 by exact Hp. reflexivity.
Qed.

Lemma f_write_return_inv e p data w u w1 :
  f_write e p data w = (Return u, w1) ->
  e_fault e (Write p data) = None /\
  w1 = store e p (Text data) (log (Write p data) w).
Proof.
  unfold f_write. intros H. apply call_return_inv in H as [Hf H].
  injection H as _ <-. auto.
Qed.

Lemma f_write_ok e p data w :
  e_fault e (Write p data) = None ->
  f_write e p data w = (Return tt, store e p (Text data) (log (Write p data) w)).
Proof. intros Hf. unfold f_write. rewrite call_ok by exact Hf. reflexivity. Qed.

Lemma os_chmod_file_ok e p mode w f :
  e_fault e (Chmod p mode) = None -> files w !! p = Some f ->
  os_chmod e p mode w
  = (Return tt,
     with_files (<[p := {| f_body := f_body f; f_mode := mode |}]> (files w))
       (log (Chmod p mode) w)).
Proof.
  intros Hf Hp. unfold os_chmod. rewrite call_ok by exact Hf.
  cbn. rewrite Hp. reflexivity.
Qed.

Lemma os_chmod_file_return_inv e p mode w f u w1 :
  files w !! p = Some f ->
  os_chmod e p mode w = (Return u, w1) ->
  e_fault e (Chmod p mode) = None /\
  w1 = with_files (<[p := {| f_body := f_body f; f_mode := mode |}]> (files w))
         (log (Chmod p mode) w).
Proof.
  intros Hp H. unfold os_chmod in H. apply call_return_inv in H as [Hf H].
  cbn in H. rewrite Hp in H. injection H as _ <-. auto.
Qed.

Lemma subprocess_run_return_inv e argv w u w1 :
  subprocess_run e argv w = (Return u, w1) ->
  e_fault e (Spawn argv) = None /\ e_exit e argv = 0 /\
  w1 = proc_effect e argv (log (Spawn argv) w).
Proof.
  unfold subprocess_run. intros H. apply call_return_inv in H as [Hf H].
  cbn in H. destruct (Z.eqb_spec (e_exit e argv) 0); [|discriminate].
  injection H as _ <-. auto.
Qed.

Lemma subprocess_run_ok e argv w :
  e_fault e (Spawn argv) = None -> e_exit e argv = 0 ->
  subprocess_run e argv w = (Return tt, proc_effect e argv (log (Spawn argv) w)).
Proof.
  intros Hf Hx. unfold subprocess_run. rewrite call_ok by exact Hf.
  cbn. rewrite Hx. reflexivity.
Qed.


Lemma os_remove_return_inv e p w u w1 :
  os_remove e p w = (Return u, w1) ->
  e_fault e (Remove p) = None /\ is_Some (files w !! p) /\
  w1 = with_files (delete p (files w)) (log (Remove p) w).
Proof.
  unfold os_remove. intros H. apply call_return_inv in H as [Hf H].
  cbn in H. destruct (files w !! p) eqn:Hp.
  - injection H as _ <-. eauto.
  - case_bool_decide; discriminate.
Qed.

Lemma os_remove_ok e p w :
  e_fault e (Remove p) = None -> is_Some (files w !! p) ->
  os_remove e p w
  = (Return tt, with_files (delete p (files w)) (log (Remove p) w)).
Proof.
  intros Hf [f Hp]. unfold os_remove. rewrite call_ok by exact Hf.
  cbn. rewrite Hp. reflexivity.
Qed.

(** ** Resolving the location *)

Lemma get_startup_location_eq e self w :
  supported (system self) ->
  _get_startup_location e self w
  = match location e self with
    | None => (Raise (RuntimeError "Could not determine home directory."), w)
    | Some loc =>
        match location_dir e self with
        | None => (Return loc, w)
        | Some d => (os_makedirs e d ;;; ret loc) w
        end
    end.
Proof.
  unfold supported, _get_startup_location, location, location_dir, Path_home.
  intros [H|[H|H]]; rewrite H; cbn;
    try (destruct (e_home e); reflexivity).
Qed.

Lemma location_dir_windows e self :
  system self = "Windows" -> location_dir e self = None.
Proof. unfold location_dir. intros ->. reflexivity. Qed.

Lemma artifact_eq e self :
  artifact e self
  = match location e self with
    | Some loc => Some (if String.eqb (system self) "Windows"
                        then path_div e loc (app_name self +:+ ".lnk")
                        else loc)
    | None => None
    end.
Proof. unfold artifact. destruct (location e self); reflexivity. Qed.

(** When the location resolves, it is the one [location] gives, and the
    world has changed by the directory made on the way at most. *)
Lemma get_startup_location_return e self w loc w1 :
  supported (system self) ->
  _get_startup_location e self w = (Return loc, w1) ->
  location e self = Some loc /\
  match location_dir e self with
  | None => w1 = w
  | Some d => e_fault e (Makedirs d) = None /\ files w !! d = None /\
              w1 = with_dirs ({[d]} ∪ dirs w) (log (Makedirs d) w)
  end.
Proof.
  intros Hs H. rewrite get_startup_location_eq in H by exact Hs.
  destruct (location e self) as [loc'|]; [|discriminate].
  destruct (location_dir e self) as [d|].
  - apply bind_return_inv in H as (u & w0 & Hm & Hr).
    injection Hr as <- <-.
    apply os_makedirs_return_inv in Hm as (? & ? & ?). auto.
  - injection H as <- <-. auto.
Qed.

Lemma get_startup_location_frame e self w r w1 :
  supported (system self) ->
  _get_startup_location e self w = (r, w1) ->
  files w1 = files w /\ loaded w1 = loaded w /\ stdout w1 = stdout w /\
  match location_dir e self with
  | None => w1 = w
  | Some d => (trace w1 = trace w \/ trace w1 = trace w ++ [Makedirs d]) /\
              (dirs w1 = dirs w \/ dirs w1 = {[d]} ∪ dirs w)
  end.
Proof.
  intros Hs H. rewrite get_startup_location_eq in H by exact Hs.
  destruct (location e self) as [loc|] eqn:Hloc.
  - destruct (location_dir e self) as [d|].
    + unfold bind in H.
      destruct (os_makedirs e d w) as [[u|ex] w0] eqn:Hm;
        injection H as <- <-;
        apply os_makedirs_frame in Hm as (? & ? & ? & ? & ?); auto 8.
    + injection H as <- <-. auto.
  - injection H as <- <-. destruct (location_dir e self); auto 8.
Qed.

(** ** [is_enabled] *)

Lemma is_enabled_eq e self w :
  supported (system self) ->
  is_enabled e self w
  = (loc <- _get_startup_location e self ;;
     b <- Path_exists e (if String.eqb (system self) "Windows"
                         then path_div e loc (app_name self +:+ ".lnk")
                         else loc) ;;
     ret (Some b)) w.
Proof.
  unfold supported, is_enabled. intros [H|[H|H]]; rewrite H; reflexivity.
Qed.

Lemma prefix_refl s : String.prefix s s = true.
Proof.
  induction s as [|a s IH]; [reflexivity|]. cbn.
  destruct (ascii_dec a a); [exact IH|contradiction].
Qed.

(** What resolving the location does to the directories. *)
Lemma get_startup_location_dirs e self w r w1 :
  supported (system self) ->
  _get_startup_location e self w = (r, w1) ->
  (forall x, x ∈ dirs w -> x ∈ dirs w1) /\
  ((forall d, location_dir e self = Some d -> d ∈ dirs w) ->
   dirs w1 = dirs w) /\
  (forall x, x ∈ dirs w1 ->
     x ∈ dirs w \/
     exists d, location_dir e self = Some d /\ String.prefix x d = true).
Proof.
  intros Hs H.
  apply get_startup_location_frame in H as (_ & _ & _ & Hdir); [|exact Hs].
  destruct (location_dir e self) as [d|].
  - destruct Hdir as [_ [Hd|Hd]]; rewrite Hd.
    + split; [auto|]. split; [auto|]. auto.
    + split; [intros x Hx; apply elem_of_union_r, Hx|]. split.
      * intros Hin. specialize (Hin d eq_refl).
        apply set_eq. intros x. rewrite elem_of_union, elem_of_singleton.
        split; [intros [->|Hx]; assumption|auto].
      * intros x [->%elem_of_singleton|Hx]%elem_of_union; [|auto].
        right. exists d. split; [reflexivity|apply prefix_refl].
  - subst w1. split; [auto|]. split; [auto|]. auto.
Qed.

(** C4, as the code has it. On a supported platform [is_enabled] writes,
    changes and deletes no file, starts no program and prints nothing. Its
    calls are the [os.makedirs] of the resolver, on the LaunchAgents or
    autostart directory, and the probe of the artifact. So the one change
    it can make to the file system is by that [os.makedirs]: no directory
    goes, a directory that comes is on the way to the directory of the
    artifact, and none comes when that directory is there already, nor on
    Windows. It has no handler: what the resolver raises it raises, what
    the probe raises it raises, and otherwise it returns whether the
    artifact is there. *)
Theorem is_enabled_reads_and_propagates
  (e : env) (self : StartupManager) (w : world) (r : result (option bool))
  (w' : world) :
  supported (system self) ->
  is_enabled e self w = (r, w') ->
  (files w' = files w /\ loaded w' = loaded w /\ stdout w' = stdout w) /\
  (exists calls, trace w' = trace w ++ calls /\
                 Forall (resolver_call e self) calls) /\
  (forall x, x ∈ dirs w -> x ∈ dirs w') /\
  (forall x, x ∈ dirs w' ->
     x ∈ dirs w \/
     exists d, location_dir e self = Some d /\ String.prefix x d = true) /\
  ((forall d, location_dir e self = Some d -> d ∈ dirs w) ->
   dirs w' = dirs w) /\
  (system self = "Windows" -> dirs w' = dirs w) /\
  (forall ex w1, _get_startup_location e self w = (Raise ex, w1) ->
     r = Raise ex /\ w' = w1) /\
  (forall loc w1, _get_startup_location e self w = (Return loc, w1) ->
     exists p, artifact e self = Some p /\
       r = match e_fault e (Stat p) with
           | Some msg => Raise (OSError msg)
           | None => Return (Some (path_present p w1))
           end).
Proof.
  intros Hs H. rewrite is_enabled_eq in H by exact Hs.
  unfold bind at 1 in H.
  destruct (_get_startup_location e self w) as [[loc|ex] w0] eqn:Hloc.
  - pose proof (get_startup_location_frame _ _ _ _ _ Hs Hloc)
      as (Hfi & Hlo & Hso & Hdir).
    pose proof (get_startup_location_dirs _ _ _ _ _ Hs Hloc)
      as (Hmono & Hsame & Hnew).
    apply get_startup_location_return in Hloc as [Hl _]; [|exact Hs].
    unfold bind in H. rewrite Path_exists_eq in H.
    set (p := if String.eqb (system self) "Windows"
              then path_div e loc (app_name self +:+ ".lnk") else loc) in *.
    assert (Hart : artifact e self = Some p)
      by (rewrite artifact_eq, Hl; reflexivity).
    assert (Hw' : w' = log (Stat p) w0).
    { destruct (e_fault e (Stat p)); injection H as _ <-; reflexivity. }
    assert (Hr : r = match e_fault e (Stat p) with
                     | Some msg => Raise (OSError msg)
                     | None => Return (Some (path_present p w0))
                     end).
    { destruct (e_fault e (Stat p)); injection H as <- _; reflexivity. }
    subst w'. cbn [files loaded stdout dirs trace log].
    split; [auto|]. split; [|split; [exact Hmono|split; [exact Hnew|split;
      [exact Hsame|split; [|split]]]]].
    + destruct (location_dir e self) as [d|] eqn:Hd.
      * destruct Hdir as [[Ht|Ht] _]; rewrite Ht.
        -- exists [Stat p]. split; [reflexivity|].
           constructor; [exact Hart|constructor].
        -- exists [Makedirs d; Stat p]. rewrite <- app_assoc.
           split; [reflexivity|].
           constructor; [exact Hd|constructor; [exact Hart|constructor]].
      * subst w0. exists [Stat p]. split; [reflexivity|].
        constructor; [exact Hart|constructor].
    + intros Hwin. rewrite (location_dir_windows _ _ Hwin) in Hdir.
      subst w0. reflexivity.
    + intros ex w1 [=].
    + intros loc' w1 [= <- <-]. exists p. split; [exact Hart|exact Hr].
  - injection H as <- <-.
    pose proof (get_startup_location_frame _ _ _ _ _ Hs Hloc)
      as (Hfi & Hlo & Hso & Hdir).
    pose proof (get_startup_location_dirs _ _ _ _ _ Hs Hloc)
      as (Hmono & Hsame & Hnew).
    split; [auto|]. split; [|split; [exact Hmono|split; [exact Hnew|split;
      [exact Hsame|split; [|split]]]]].
    + destruct (location_dir e self) as [d|] eqn:Hd.
      * destruct Hdir as [[Ht|Ht] _]; rewrite Ht.
        -- exists []. rewrite app_nil_r. split; [reflexivity|constructor].
        -- exists [Makedirs d]. split; [reflexivity|].
           constructor; [exact Hd|constructor].
      * subst w0. exists []. rewrite app_nil_r. split; [reflexivity|constructor].
    + intros Hwin. rewrite (location_dir_windows _ _ Hwin) in Hdir.
      subst w0. reflexivity.
    + intros ex' w1 [= <- <-]. auto.
    + intros loc' w1 [=].
Qed.

Lemma supported_linux : supported "Linux".
Proof. right; right; reflexivity. Qed.

Lemma supported_darwin : supported "Darwin".
Proof. right; left; reflexivity. Qed.

Lemma supported_windows : supported "Windows".
Proof. left; reflexivity. Qed.

(** On a fresh Linux account the query answers no and touches no file;
    the directories there were are still there. *)
Lemma is_enabled_reads_and_propagates_witness :
  fst (is_enabled Hosts.linux Hosts.sample Hosts.fresh) = Return (Some false) /\
  files (snd (is_enabled Hosts.linux Hosts.sample Hosts.fresh))
  = files Hosts.fresh /\
  (forall x, x ∈ dirs Hosts.fresh ->
             x ∈ dirs (snd (is_enabled Hosts.linux Hosts.sample Hosts.fresh))).
Proof.
  pose proof (is_enabled_reads_and_propagates Hosts.linux Hosts.sample
                Hosts.fresh _ _ (or_intror (or_intror eq_refl))
                (surjective_pairing _))
    as ((Hf & _) & _ & Hd & _).
  split; [vm_compute; reflexivity|]. split; [exact Hf|exact Hd].
Defined.

(** C4, as the specification words it, fails on a fresh Linux account:
    the query creates [~/.config/autostart]. *)
Lemma is_enabled_creates_directory :
  ~ is_enabled_pure_read Hosts.linux Hosts.sample Hosts.fresh.
Proof.
  intros [_ Hd].
  assert (Hin : bool_decide
                  ("/home/user/.config/autostart"
                     ∈ dirs (snd (is_enabled Hosts.linux Hosts.sample
                                    Hosts.fresh))) = true)
    by (vm_compute; reflexivity).
  rewrite Hd in Hin. vm_compute in Hin. discriminate Hin.
Qed.

(** ** [enable] *)

Lemma enable_true_inv e self w w1 :
  enable e self w = (Return true, w1) -> enable_try e self w = (Return true, w1).
Proof.
  unfold enable, try_except.
  destruct (enable_try e self w) as [[b|ex] w0].
  - intros [= -> ->]. reflexivity.
  - rewrite is_Exception_all. discriminate.
Qed.

Lemma enable_try_enable e self w w1 :
  enable_try e self w = (Return true, w1) -> enable e self w = (Return true, w1).
Proof. intros H. unfold enable. apply try_except_return, H. Qed.

Lemma write_chmod_ok e p data mode w :
  p ∉ dirs w -> e_fault e (OpenW p) = None ->
  e_fault e (Write p data) = None -> e_fault e (Chmod p mode) = None ->
  forall {B} (k : M B),
    (write_file e p data ;;; os_chmod e p mode ;;; k) w = k (wrote p data mode w).
Proof.
  intros Hd Ho Hw Hc B k. unfold write_file.
  rewrite (bind_return _ _ _ tt
             (store e p (Text data)
                (log (Write p data) (store e p (Text "") (log (OpenW p) w))))).
  2:{ rewrite (bind_return _ _ _ _ _ (open_w_ok e p w Ho Hd)).
      apply f_write_ok, Hw. }
  erewrite bind_return.
  2:{ apply os_chmod_file_ok; [exact Hc|].
      unfold store. cbn. apply lookup_insert_eq. }
  f_equal. unfold wrote, store, with_files, log. cbn.
  rewrite !insert_insert_eq, <- !app_assoc. reflexivity.
Qed.

Lemma write_chmod_return_inv e p data mode w {B} (k : M B) b w1 :
  (write_file e p data ;;; os_chmod e p mode ;;; k) w = (Return b, w1) ->
  (p ∉ dirs w) /\ e_fault e (OpenW p) = None /\
  e_fault e (Write p data) = None /\ e_fault e (Chmod p mode) = None /\
  k (wrote p data mode w) = (Return b, w1).
Proof.
  intros H. pose proof H as H0.
  apply bind_return_inv in H as (u & w2 & Hwf & H).
  apply bind_return_inv in H as (u' & w3 & Hch & _).
  unfold write_file in Hwf.
  apply bind_return_inv in Hwf as (u0 & w0 & Ho & Hw).
  apply open_w_return_inv in Ho as (Ho & Hd & ->).
  apply f_write_return_inv in Hw as (Hw & ->).
  eapply os_chmod_file_return_inv in Hch as (Hc & _).
  2:{ unfold store. cbn. apply lookup_insert_eq. }
  rewrite (write_chmod_ok e p data mode w Hd Ho Hw Hc) in H0. auto.
Qed.

Lemma install_ok e d p data mode w :
  can_install e d p data mode w ->
  forall {B} (k : M B),
    (os_makedirs e d ;;; write_file e p data ;;; os_chmod e p mode ;;; k) w
    = k (wrote p data mode (made d w)).
Proof.
  intros (Hm & Hf & Hd & Ho & Hw & Hc) B k.
  rewrite (bind_return _ _ _ _ _ (os_makedirs_ok e d w Hm Hf)).
  apply write_chmod_ok; auto.
Qed.

Lemma install_return_inv e d p data mode w {B} (k : M B) b w1 :
  (os_makedirs e d ;;; write_file e p data ;;; os_chmod e p mode ;;; k) w
  = (Return b, w1) ->
  can_install e d p data mode w /\
  k (wrote p data mode (made d w)) = (Return b, w1).
Proof.
  intros H. apply bind_return_inv in H as (u & w0 & Hm & H).
  apply os_makedirs_return_inv in Hm as (Hm & Hf & ->).
  apply write_chmod_return_inv in H as (Hd & Ho & Hw & Hc & H).
  unfold can_install. auto 10.
Qed.

(** Installing again, over what the first installation left. *)
Lemma can_install_again e d p data mode w w' f :
  can_install e d p data mode w ->
  files w' = <[p := f]> (files w) -> dirs w' = {[d]} ∪ dirs w ->
  can_install e d p data mode w'.
Proof.
  intros (Hm & Hf & Hd & Ho & Hw & Hc) Hfi Hdi. unfold can_install.
  rewrite Hfi, Hdi. repeat split; auto.
  - rewrite lookup_insert_ne; [exact Hf|].
    intros ->. apply Hd, elem_of_union_l, elem_of_singleton. reflexivity.
  - rewrite elem_of_union. intros [H|H]; apply Hd; [|exact H].
    apply elem_of_union_l, H.
Qed.

Lemma enable_try_windows e self w :
  system self = "Windows" ->
  enable_try e self w
  = (subprocess_run e
       ["powershell"; "-Command";
        ps_command (path_div e (expandvars_startup e) (app_name self +:+ ".lnk"))
          self] ;;; ret true) w.
Proof.
  intros Hs. unfold enable_try, _get_startup_location. rewrite Hs. reflexivity.
Qed.

Lemma bind_assoc {A B C} (c : M A) (k1 : A -> M B) (k2 : B -> M C) w :
  bind (bind c k1) k2 w = bind c (fun a => bind (k1 a) k2) w.
Proof. unfold bind. destruct (c w) as [[a|ex] w0]; reflexivity. Qed.

Lemma enable_try_darwin e self w d loc :
  system self = "Darwin" ->
  location_dir e self = Some d -> location e self = Some loc ->
  enable_try e self w
  = (os_makedirs e d ;;; write_file e loc (plist_content self) ;;;
     os_chmod e loc 420 ;;;
     subprocess_run e ["launchctl"; "load"; loc] ;;; ret true) w.
Proof.
  intros Hs Hd Hl. unfold enable_try. unfold bind at 1.
  rewrite get_startup_location_eq, Hl, Hd by (rewrite Hs; apply supported_darwin).
  rewrite Hs. cbn [String.eqb Ascii.eqb Bool.eqb andb].
  unfold write_file, bind, ret.
  destruct (os_makedirs e d w) as [[u|ex] w0]; [|reflexivity].
  destruct (open_w e loc w0) as [[u1|ex] w1]; [|reflexivity].
  destruct (f_write e loc (plist_content self) w1) as [[u2|ex] w2]; [|reflexivity].
  destruct (os_chmod e loc 420 w2) as [[u3|ex] w3]; [|reflexivity].
  destruct (subprocess_run e ["launchctl"; "load"; loc] w3) as [[u4|ex] w4];
    reflexivity.
Qed.

Lemma enable_try_linux e self w d loc :
  system self = "Linux" ->
  location_dir e self = Some d -> location e self = Some loc ->
  enable_try e self w
  = (os_makedirs e d ;;; write_file e loc (desktop_content self) ;;;
     os_chmod e loc 493 ;;; ret true) w.
Proof.
  intros Hs Hd Hl. unfold enable_try. unfold bind at 1.
  rewrite get_startup_location_eq, Hl, Hd by (rewrite Hs; apply supported_linux).
  rewrite Hs. cbn [String.eqb Ascii.eqb Bool.eqb andb].
  unfold write_file, bind, ret.
  destruct (os_makedirs e d w) as [[u|ex] w0]; [|reflexivity].
  destruct (open_w e loc w0) as [[u1|ex] w1]; [|reflexivity].
  destruct (f_write e loc (desktop_content self) w1) as [[u2|ex] w2]; [|reflexivity].
  destruct (os_chmod e loc 493 w2) as [[u3|ex] w3]; [|reflexivity].
  reflexivity.
Qed.

Lemma union_singleton_twice (d : string) (X : gset string) :
  {[d]} ∪ ({[d]} ∪ X) = {[d]} ∪ X.
Proof. rewrite (assoc_L (∪)), (idemp_L (∪)). reflexivity. Qed.

Lemma path_present_file p w f :
  files w !! p = Some f -> path_present p w = true.
Proof.
  intros H. unfold path_present.
  rewrite bool_decide_eq_true_2 by (rewrite H; eauto). reflexivity.
Qed.

Lemma location_has_dir e self loc :
  system self = "Darwin" \/ system self = "Linux" ->
  location e self = Some loc -> exists d, location_dir e self = Some d.
Proof.
  unfold location, location_dir.
  intros [H|H]; rewrite H; cbn; destruct (e_home e); cbn; eauto; discriminate.
Qed.

Lemma enable_try_location e self w b w1 :
  supported (system self) ->
  enable_try e self w = (Return b, w1) ->
  exists loc, location e self = Some loc.
Proof.
  intros Hs H. unfold enable_try in H.
  apply bind_return_inv in H as (loc & w0 & Hl & _).
  apply get_startup_location_return in Hl as [Hl _]; eauto.
Qed.

Lemma is_enabled_posix_yes e self d loc f w :
  system self = "Darwin" \/ system self = "Linux" ->
  location_dir e self = Some d -> location e self = Some loc ->
  e_fault e (Makedirs d) = None -> files w !! d = None ->
  files w !! loc = Some f -> e_fault e (Stat loc) = None ->
  exists w2, is_enabled e self w = (Return (Some true), w2).
Proof.
  intros Hs Hd Hl Hm Hfd Hfl Hst.
  assert (Hsup : supported (system self)) by (unfold supported; tauto).
  assert (Hnw : String.eqb (system self) "Windows" = false)
    by (destruct Hs as [-> | ->]; reflexivity).
  rewrite is_enabled_eq by exact Hsup. unfold bind at 1.
  rewrite get_startup_location_eq, Hl, Hd by exact Hsup.
  rewrite (bind_return _ _ _ _ _ (os_makedirs_ok e d w Hm Hfd)).
  cbn [ret]. rewrite Hnw. unfold bind. rewrite Path_exists_eq, Hst.
  erewrite path_present_file by exact Hfl. eauto.
Qed.

Lemma enable_settled_darwin e self w w1 :
  system self = "Darwin" ->
  enable_try e self w = (Return true, w1) -> enable_settled e self w w1.
Proof.
  intros Hs H.
  assert (Hsup : supported (system self)) by (rewrite Hs; apply supported_darwin).
  destruct (enable_try_location _ _ _ _ _ Hsup H) as [loc Hl].
  destruct (location_has_dir e self loc (or_introl Hs) Hl) as [d Hd].
  rewrite (enable_try_darwin _ _ _ d loc Hs Hd Hl) in H.
  apply install_return_inv in H as [Hcan H].
  apply bind_return_inv in H as (u & w2 & Hrun & Hret).
  injection Hret as <-.
  apply subprocess_run_return_inv in Hrun as (Hsf & Hsx & ->).
  set (f := {| f_body := Text (plist_content self); f_mode := 420 |}).
  exists loc, f. split; [|split; [|split]].
  - rewrite artifact_eq, Hl, Hs. reflexivity.
  - unfold artifact_body. rewrite Hs. reflexivity.
  - reflexivity.
  - intros w' Hfi Hdi. cbn in Hfi, Hdi.
    assert (Hcan' : can_install e d loc (plist_content self) 420 w')
      by (eapply can_install_again; eauto).
    split.
    + rewrite (enable_try_darwin _ _ _ d loc Hs Hd Hl).
      rewrite (install_ok _ _ _ _ _ _ Hcan').
      rewrite (bind_return _ _ _ _ _ (subprocess_run_ok _ _ _ Hsf Hsx)).
      eexists. split; [reflexivity|]. cbn. rewrite Hfi, Hdi. split.
      * apply insert_insert_eq.
      * apply union_singleton_twice.
    + intros Hst. destruct Hcan as (Hm & Hfd & Hnd & _).
      eapply (is_enabled_posix_yes e self d loc f); eauto.
      * rewrite Hfi, lookup_insert_ne; [exact Hfd|].
        intros ->. apply Hnd, elem_of_union_l, elem_of_singleton. reflexivity.
      * rewrite Hfi. apply lookup_insert_eq.
Qed.

Lemma enable_settled_linux e self w w1 :
  system self = "Linux" ->
  enable_try e self w = (Return true, w1) -> enable_settled e self w w1.
Proof.
  intros Hs H.
  assert (Hsup : supported (system self)) by (rewrite Hs; apply supported_linux).
  destruct (enable_try_location _ _ _ _ _ Hsup H) as [loc Hl].
  destruct (location_has_dir e self loc (or_intror Hs) Hl) as [d Hd].
  rewrite (enable_try_linux _ _ _ d loc Hs Hd Hl) in H.
  apply install_return_inv in H as [Hcan H].
  injection H as <-.
  set (f := {| f_body := Text (desktop_content self); f_mode := 493 |}).
  exists loc, f. split; [|split; [|split]].
  - rewrite artifact_eq, Hl, Hs. reflexivity.
  - unfold artifact_body. rewrite Hs. reflexivity.
  - reflexivity.
  - intros w' Hfi Hdi. cbn in Hfi, Hdi.
    assert (Hcan' : can_install e d loc (desktop_content self) 493 w')
      by (eapply can_install_again; eauto).
    split.
    + rewrite (enable_try_linux _ _ _ d loc Hs Hd Hl).
      rewrite (install_ok _ _ _ _ _ _ Hcan').
      eexists. split; [reflexivity|]. cbn. rewrite Hfi, Hdi. split.
      * apply insert_insert_eq.
      * apply union_singleton_twice.
    + intros Hst. destruct Hcan as (Hm & Hfd & Hnd & _).
      eapply (is_enabled_posix_yes e self d loc f); eauto.
      * rewrite Hfi, lookup_insert_ne; [exact Hfd|].
        intros ->. apply Hnd, elem_of_union_l, elem_of_singleton. reflexivity.
      * rewrite Hfi. apply lookup_insert_eq.
Qed.

Lemma location_windows e self :
  system self = "Windows" -> location e self = Some (expandvars_startup e).
Proof. unfold location. intros ->. reflexivity. Qed.

Lemma proc_effect_powershell e script w :
  proc_effect e ["powershell"; "-Command"; script] w
  = match e_wsh e script with
    | Some (lnk, target) => store e lnk (Shortcut target) w
    | None => w
    end.
Proof. reflexivity. Qed.

Lemma enable_settled_windows e self w w1 :
  system self = "Windows" -> host_saves_shortcut e self ->
  enable_try e self w = (Return true, w1) -> enable_settled e self w w1.
Proof.
  intros Hs Hhost H.
  assert (Hsup : supported (system self)) by (rewrite Hs; apply supported_windows).
  set (p := path_div e (expandvars_startup e) (app_name self +:+ ".lnk")).
  assert (Hart : artifact e self = Some p).
  { rewrite artifact_eq, (location_windows _ _ Hs), Hs. reflexivity. }
  pose proof (Hhost p Hart) as Hwsh.
  rewrite (enable_try_windows _ _ _ Hs) in H. fold p in H.
  apply bind_return_inv in H as (u & w2 & Hrun & Hret).
  injection Hret as <-.
  apply subprocess_run_return_inv in Hrun as (Hsf & Hsx & ->).
  rewrite proc_effect_powershell, Hwsh.
  set (f := {| f_body := Shortcut (app_path self);
               f_mode := match files w !! p with
                         | Some f0 => f_mode f0
                         | None => Z.ldiff 438 (e_umask e)
                         end |}).
  exists p, f. split; [exact Hart|]. split; [|split].
  - unfold artifact_body. rewrite Hs. reflexivity.
  - reflexivity.
  - intros w' Hfi Hdi. cbn in Hfi, Hdi. split.
    + rewrite (enable_try_windows _ _ _ Hs). fold p.
      rewrite (bind_return _ _ _ _ _ (subprocess_run_ok _ _ _ Hsf Hsx)).
      rewrite proc_effect_powershell, Hwsh.
      eexists. split; [reflexivity|]. unfold store. cbn.
      rewrite Hfi, Hdi, lookup_insert_eq. cbn.
      split; [apply insert_insert_eq|reflexivity].
    + intros Hst. rewrite is_enabled_eq by exact Hsup. unfold bind at 1.
      rewrite get_startup_location_eq, (location_windows _ _ Hs),
        (location_dir_windows _ _ Hs) by exact Hsup.
      rewrite Hs. cbn [String.eqb Ascii.eqb Bool.eqb andb]. fold p.
      unfold bind. rewrite Path_exists_eq, Hst.
      erewrite path_present_file; [eauto|].
      rewrite Hfi. apply lookup_insert_eq.
Qed.

Lemma enable_settles e self w w1 :
  supported (system self) ->
  (system self = "Windows" -> host_saves_shortcut e self) ->
  enable e self w = (Return true, w1) -> enable_settled e self w w1.
Proof.
  intros Hs Hhost H. apply enable_true_inv in H.
  destruct Hs as [Hs|[Hs|Hs]].
  - apply enable_settled_windows; auto.
  - apply enable_settled_darwin; auto.
  - apply enable_settled_linux; auto.
Qed.

(** C1, as the code has it. On a supported platform, when [enable()] has
    returned true, the artifact is in place and [is_enabled()] then
    returns true; on Windows provided the shell-automation host, which
    exited with status 0, saved the shortcut where the script says; and
    provided the [stat] of the probe itself does not fail. *)
Theorem enabled_after_successful_enable
  (e : env) (self : StartupManager) (w w1 : world) :
  supported (system self) ->
  (system self = "Windows" -> host_saves_shortcut e self) ->
  (forall p, artifact e self = Some p -> e_fault e (Stat p) = None) ->
  enable e self w = (Return true, w1) ->
  (exists p, artifact e self = Some p /\ is_Some (files w1 !! p)) /\
  fst (is_enabled e self w1) = Return (Some true).
Proof.
  intros Hs Hhost Hst H.
  destruct (enable_settles e self w w1 Hs Hhost H)
    as (p & f & Hart & _ & Hfi & Hnext).
  split.
  - exists p. split; [exact Hart|]. rewrite Hfi, lookup_insert_eq. eauto.
  - destruct (Hnext w1 eq_refl eq_refl) as [_ Hq].
    destruct (Hq (Hst p Hart)) as [w2 ->]. reflexivity.
Qed.

Lemma result_world {A} (c : M A) (w : world) (r : result A) :
  fst (c w) = r -> c w = (r, snd (c w)).
Proof. intros <-. apply surjective_pairing. Qed.

(** On Windows, with a PowerShell host that saves the shortcut. *)
Lemma enabled_after_successful_enable_witness :
  fst (enable Hosts.windows Hosts.sample_windows Hosts.fresh_windows)
  = Return true /\
  fst (is_enabled Hosts.windows Hosts.sample_windows
         (snd (enable Hosts.windows Hosts.sample_windows Hosts.fresh_windows)))
  = Return (Some true).
Proof.
  assert (Hen : fst (enable Hosts.windows Hosts.sample_windows
                       Hosts.fresh_windows) = Return true)
    by (vm_compute; reflexivity).
  split; [exact Hen|].
  apply (enabled_after_successful_enable Hosts.windows Hosts.sample_windows
           Hosts.fresh_windows).
  - left. reflexivity.
  - intros _ p Hp. vm_compute in Hp. injection Hp as <-.
    vm_compute. reflexivity.
  - intros p _. reflexivity.
  - apply result_world, Hen.
Defined.

(** C1, as the specification words it, fails where the autostart
    directory cannot be written to: [enable] returns false, and
    [is_enabled] then returns false. *)
Lemma enable_refused_then_not_enabled :
  supported (system Hosts.sample) /\
  fst (enable Hosts.linux_readonly Hosts.sample Hosts.fresh) = Return false /\
  ~ enable_then_enabled Hosts.linux_readonly Hosts.sample Hosts.fresh.
Proof.
  split; [apply supported_linux|]. split; [vm_compute; reflexivity|].
  unfold enable_then_enabled. vm_compute. discriminate.
Qed.

Lemma proc_effect_trace e argv w : trace (proc_effect e argv w) = trace w.
Proof.
  unfold proc_effect.
  destruct argv as [|prog [|verb [|arg [|]]]]; try reflexivity.
  repeat match goal with
         | |- context [if ?c then _ else _] => destruct c
         end; try reflexivity.
  destruct (e_wsh e arg) as [[]|]; reflexivity.
Qed.

Lemma append_cons a s r : String a s +:+ r = String a (s +:+ r).
Proof. reflexivity. Qed.

Lemma append_assoc s1 s2 s3 : (s1 +:+ s2) +:+ s3 = s1 +:+ s2 +:+ s3.
Proof.
  induction s1 as [|a s1 IH]; [reflexivity|].
  rewrite !append_cons, IH. reflexivity.
Qed.

(** The script of [enable] names the shortcut and its target. *)
Lemma ps_command_names p self :
  occurs_in ("$Shortcut = $WshShell.CreateShortcut('" +:+ p +:+ "')")
    (ps_command p self) /\
  occurs_in ("$Shortcut.TargetPath = '" +:+ app_path self +:+ "'")
    (ps_command p self).
Proof.
  split.
  - exists (LF +:+
            "                $WshShell = New-Object -comObject WScript.Shell"
            +:+ LF +:+ "                "),
           (LF +:+ "                $Shortcut.TargetPath = '" +:+ app_path self
            +:+ "'" +:+ LF +:+
            "                $Shortcut.Save()" +:+ LF +:+ "                ").
    unfold ps_command. rewrite !append_assoc. reflexivity.
  - exists (LF +:+
            "                $WshShell = New-Object -comObject WScript.Shell"
            +:+ LF +:+
            "                $Shortcut = $WshShell.CreateShortcut('" +:+ p
            +:+ "')" +:+ LF +:+ "                "),
           (LF +:+ "                $Shortcut.Save()" +:+ LF +:+
            "                ").
    unfold ps_command. rewrite !append_assoc. reflexivity.
Qed.

(** C6, as the code has it. When [enable()] has returned true, calling it
    again returns true again and leaves the files as the first call left
    them: the files there were before, and the one artifact at the
    resolved location, written over rather than added to. On Windows
    this is for a shell-automation host that saves the shortcut where the
    script says; the second call runs PowerShell once more, on the script
    that names the shortcut and the executable. *)
Theorem enable_twice_one_artifact
  (e : env) (self : StartupManager) (w w1 : world) :
  supported (system self) ->
  (system self = "Windows" -> host_saves_shortcut e self) ->
  enable e self w = (Return true, w1) ->
  exists p f w2,
    artifact e self = Some p /\
    enable e self w1 = (Return true, w2) /\
    files w2 = <[p := f]> (files w) /\
    f_body f = artifact_body self /\
    dom (files w2) = {[p]} ∪ dom (files w) /\
    files w2 = files w1 /\
    (system self = "Windows" ->
     trace w2
     = trace w1 ++ [Spawn ["powershell"; "-Command"; ps_command p self]] /\
     occurs_in ("$Shortcut = $WshShell.CreateShortcut('" +:+ p +:+ "')")
       (ps_command p self) /\
     occurs_in ("$Shortcut.TargetPath = '" +:+ app_path self +:+ "'")
       (ps_command p self)).
Proof.
  intros Hs Hhost H.
  destruct (enable_settles e self w w1 Hs Hhost H)
    as (p & f & Hart & Hbody & Hfi & Hnext).
  destruct (Hnext w1 eq_refl eq_refl) as [(w2 & Htry & Hfi2 & _) _].
  exists p, f, w2. split; [exact Hart|].
  split; [apply enable_try_enable, Htry|].
  rewrite Hfi2, Hfi. split; [reflexivity|]. split; [exact Hbody|].
  split; [apply dom_insert_L|]. split; [reflexivity|].
  intros Hwin. split; [|apply ps_command_names].
  rewrite artifact_eq, (location_windows _ _ Hwin), Hwin in Hart.
  cbn [String.eqb Ascii.eqb Bool.eqb andb] in Hart. injection Hart as <-.
  rewrite (enable_try_windows _ _ _ Hwin) in Htry.
  apply bind_return_inv in Htry as (u & w0 & Hrun & Hret).
  unfold ret in Hret. assert (w0 = w2) as -> by congruence.
  apply subprocess_run_return_inv in Hrun as (_ & _ & ->).
  rewrite proc_effect_trace. reflexivity.
Qed.

(** On macOS: two calls, one property list. On Windows, with a
    PowerShell host that saves the shortcut: two calls, one shortcut, and
    the second call runs the same script. *)
Lemma enable_twice_one_artifact_witness :
  (exists w1 w2 f,
     enable Hosts.darwin Hosts.sample_darwin Hosts.fresh = (Return true, w1) /\
     enable Hosts.darwin Hosts.sample_darwin w1 = (Return true, w2) /\
     files w2
     = <["/Users/user/Library/LaunchAgents/Sample.plist" := f]>
         (files Hosts.fresh) /\
     f_body f = Text (plist_content Hosts.sample_darwin)) /\
  (exists w1 w2 f,
     enable Hosts.windows Hosts.sample_windows Hosts.fresh_windows
     = (Return true, w1) /\
     enable Hosts.windows Hosts.sample_windows w1 = (Return true, w2) /\
     files w2 = <[Hosts.sample_lnk := f]> (files Hosts.fresh_windows) /\
     f_body f = Shortcut (app_path Hosts.sample_windows) /\
     trace w2
     = trace w1 ++ [Spawn ["powershell"; "-Command";
                           ps_command Hosts.sample_lnk Hosts.sample_windows]]).
Proof.
  split.
  - assert (Hen : fst (enable Hosts.darwin Hosts.sample_darwin Hosts.fresh)
                  = Return true) by (vm_compute; reflexivity).
    apply result_world in Hen.
    assert (Hw : system Hosts.sample_darwin = "Windows" ->
                 host_saves_shortcut Hosts.darwin Hosts.sample_darwin)
      by (intros H; discriminate H).
    destruct (enable_twice_one_artifact Hosts.darwin Hosts.sample_darwin
                Hosts.fresh _ (or_intror (or_introl eq_refl)) Hw Hen)
      as (p & f & w2 & Hart & H2 & Hfi & Hbody & _).
    vm_compute in Hart. injection Hart as <-.
    exists (snd (enable Hosts.darwin Hosts.sample_darwin Hosts.fresh)), w2, f.
    split; [exact Hen|]. split; [exact H2|].
    split; [exact Hfi|exact Hbody].
  - assert (Hen : fst (enable Hosts.windows Hosts.sample_windows
                         Hosts.fresh_windows) = Return true)
      by (vm_compute; reflexivity).
    apply result_world in Hen.
    assert (Hw : system Hosts.sample_windows = "Windows" ->
                 host_saves_shortcut Hosts.windows Hosts.sample_windows).
    { intros _ p Hp. vm_compute in Hp. injection Hp as <-.
      vm_compute. reflexivity. }
    destruct (enable_twice_one_artifact Hosts.windows Hosts.sample_windows
                Hosts.fresh_windows _ (or_introl eq_refl) Hw Hen)
      as (p & f & w2 & Hart & H2 & Hfi & Hbody & _ & _ & Hwin).
    vm_compute in Hart. injection Hart as <-.
    destruct (Hwin eq_refl) as (Htr & _).
    exists (snd (enable Hosts.windows Hosts.sample_windows
                   Hosts.fresh_windows)), w2, f.
    split; [exact Hen|]. split; [exact H2|].
    split; [exact Hfi|]. split; [exact Hbody|exact Htr].
Defined.

(** C6, as the specification words it, fails where the autostart
    directory cannot be written to: the second call returns false as the
    first did, and no artifact is left. *)
Lemma enable_twice_refused_no_artifact :
  supported (system Hosts.sample) /\
  fst (enable Hosts.linux_readonly Hosts.sample
         (snd (enable Hosts.linux_readonly Hosts.sample Hosts.fresh)))
  = Return false /\
  files (snd (enable Hosts.linux_readonly Hosts.sample
                (snd (enable Hosts.linux_readonly Hosts.sample Hosts.fresh))))
    !! "/home/user/.config/autostart/Sample.desktop" = None /\
  ~ enable_twice_leaves_artifact Hosts.linux_readonly Hosts.sample Hosts.fresh.
Proof.
  assert (H : fst (enable Hosts.linux_readonly Hosts.sample
                     (snd (enable Hosts.linux_readonly Hosts.sample
                             Hosts.fresh)))
              = Return false) by (vm_compute; reflexivity).
  split; [apply supported_linux|]. split; [exact H|].
  split; [vm_compute; reflexivity|].
  unfold enable_twice_leaves_artifact. cbv zeta. intros [H2 _].
  rewrite H in H2. discriminate H2.
Qed.

(** ** The order of the calls *)

Lemma runs_ret {A} (a : A) : runs (ret a) [].
Proof. intros w. cbn. rewrite app_nil_r. reflexivity. Qed.

Lemma runs_bind {A B} (c : M A) (k : A -> M B) l1 l2 :
  runs c l1 -> (forall a, runs (k a) l2) -> runs (bind c k) (l1 ++ l2).
Proof.
  intros Hc Hk w. unfold bind. specialize (Hc w).
  destruct (c w) as [[a|ex] w0].
  - specialize (Hk a w0). destruct (k a w0) as [[b|ex] w1].
    + rewrite Hk, Hc, app_assoc. reflexivity.
    + destruct Hk as (l' & Hp & Ht). exists (l1 ++ l'). split.
      * apply prefix_app, Hp.
      * rewrite Ht, Hc, app_assoc. reflexivity.
  - destruct Hc as (l' & Hp & Ht). exists l'. split; [|exact Ht].
    apply prefix_app_r, Hp.
Qed.

Lemma runs_within {A} (c : M A) l : runs c l -> within c l.
Proof.
  intros H w. specialize (H w). destruct (c w) as [[a|ex] w0]; cbn.
  - exists l. split; [reflexivity|exact H].
  - exact H.
Qed.

Lemma within_weaken {A} (c : M A) l l' :
  within c l -> l `prefix_of` l' -> within c l'.
Proof.
  intros H Hp w. destruct (H w) as (l0 & Hp0 & Ht).
  exists l0. split; [|exact Ht]. etransitivity; eauto.
Qed.

Lemma within_bind {A B} (c : M A) (k : A -> M B) l1 l2 :
  runs c l1 -> (forall a, within (k a) l2) -> within (bind c k) (l1 ++ l2).
Proof.
  intros Hc Hk w. unfold bind. specialize (Hc w).
  destruct (c w) as [[a|ex] w0].
  - destruct (Hk a w0) as (l' & Hp & Ht). exists (l1 ++ l'). split.
    + apply prefix_app, Hp.
    + rewrite Ht, Hc, app_assoc. reflexivity.
  - destruct Hc as (l' & Hp & Ht). exists l'. split; [|exact Ht].
    apply prefix_app_r, Hp.
Qed.

Lemma runs_call {A} e c (k : M A) :
  (forall w, trace (snd (k w)) = trace w) -> runs (call e c k) [c].
Proof.
  intros Hk w. unfold call. destruct (e_fault e c).
  - exists [c]. split; reflexivity.
  - specialize (Hk (log c w)). destruct (k (log c w)) as [[a|ex] w1]; cbn in Hk.
    + exact Hk.
    + exists [c]. split; [reflexivity|exact Hk].
Qed.

Lemma runs_os_makedirs e p : runs (os_makedirs e p) [Makedirs p].
Proof.
  apply runs_call. intros w. destruct (files w !! p); reflexivity.
Qed.

Lemma runs_Path_exists e p : runs (Path_exists e p) [Stat p].
Proof. apply runs_call. reflexivity. Qed.




Lemma runs_os_remove e p : runs (os_remove e p) [Remove p].
Proof.
  apply runs_call. intros w.
  destruct (files w !! p); [reflexivity|]. case_bool_decide; reflexivity.
Qed.


(** The handler of [enable] and [disable] prints and makes no call. *)
Lemma try_except_print_trace (body : M bool) (msg : exn -> string) w :
  trace (snd (try_except body (fun ex => print (msg ex) ;;; ret false) w))
  = trace (snd (body w)).
Proof.
  unfold try_except. destruct (body w) as [[b|ex] w1]; [reflexivity|].
  rewrite is_Exception_all. reflexivity.
Qed.





Lemma not_elem_of_compute (x : string) (X : gset string) :
  bool_decide (x ∈ X) = false -> x ∉ X.
Proof. intros H Hin. rewrite bool_decide_eq_true_2 in H by exact Hin. discriminate H. Qed.


(** ** [disable] *)





(** ** Reading the artifacts back *)

Lemma append_nil_r s : s +:+ "" = s.
Proof.
  induction s as [|a s IH]; [reflexivity|]. rewrite append_cons, IH. reflexivity.
Qed.

Lemma snoc_append acc c s : snoc acc c +:+ s = acc +:+ String c s.
Proof. unfold snoc. rewrite append_assoc. reflexivity. Qed.

Lemma xml_plain_lacks s :
  xml_plain s = true ->
  lacks "<"%char s = true /\ lacks "&"%char s = true /\
  lacks ">"%char s = true /\ str_forall xml_char s = true.
Proof.
  unfold xml_plain, lacks. induction s as [|a s IH]; [auto|].
  cbn [str_forall]. unfold xml_plain_char at 1.
  rewrite !andb_true_iff. intros [[[[[Hlo _] H1] H2] H3] H4].
  destruct (IH H4) as (? & ? & ? & ?).
  assert (Hc : xml_char a = true) by (unfold xml_char; rewrite Hlo; reflexivity).
  auto.
Qed.

Lemma prefix_cdata_end_lacks s :
  lacks ">"%char s = true -> String.prefix "]]>" s = false.
Proof.
  unfold lacks.
  destruct s as [|a [|b [|c r]]]; cbn [String.prefix]; intros H;
    try reflexivity;
    repeat match goal with
           | |- context [ascii_dec ?x ?y] => destruct (ascii_dec x y)
           end;
    try reflexivity.
  subst. cbn in H. discriminate H.
Qed.

Lemma has_cdata_end_lacks s :
  lacks ">"%char s = true -> has_cdata_end s = false.
Proof.
  induction s as [|a s IH]; [reflexivity|]. intros H.
  cbn [has_cdata_end]. rewrite (prefix_cdata_end_lacks _ H).
  unfold lacks in H. cbn [str_forall] in H.
  apply andb_true_iff in H as [_ H]. apply IH, H.
Qed.

Lemma chardata_plain s : xml_plain s = true -> chardata s = true.
Proof.
  intros H. apply xml_plain_lacks in H as (_ & _ & Hgt & Hc).
  unfold chardata. rewrite Hc, (has_cdata_end_lacks _ Hgt). reflexivity.
Qed.

Lemma lex_run_app st a b :
  lex_run st (a +:+ b)
  = match lex_run st a with
    | Some st' => lex_run st' b
    | None => None
    end.
Proof.
  revert st. induction a as [|c a IH]; intros st; [reflexivity|].
  rewrite append_cons. cbn [lex_run].
  destruct (lex_step st c); [apply IH|reflexivity].
Qed.

(** Text without [<] is read into the text being accumulated. *)
Lemma lex_run_text acc toks s :
  lacks "<"%char s = true ->
  lex_run (InText acc, toks) s = Some (InText (acc +:+ s), toks).
Proof.
  revert acc. induction s as [|c s IH]; intros acc H.
  - rewrite append_nil_r. reflexivity.
  - unfold lacks in H. cbn [str_forall] in H.
    apply andb_true_iff in H as [Hc Hs].
    cbn [lex_run lex_step]. apply negb_true_iff in Hc. rewrite Hc.
    rewrite (IH _ Hs), snoc_append. reflexivity.
Qed.

(** Text without [&] decodes to itself. *)
Lemma decode_run_plain out s :
  lacks "&"%char s = true -> decode_run None out s = Some (out +:+ s).
Proof.
  revert out. induction s as [|c s IH]; intros out H.
  - rewrite append_nil_r. reflexivity.
  - unfold lacks in H. cbn [str_forall] in H.
    apply andb_true_iff in H as [Hc Hs].
    cbn [decode_run]. apply negb_true_iff in Hc. rewrite Hc.
    rewrite (IH _ Hs), snoc_append. reflexivity.
Qed.

Lemma decode_plain s : lacks "&"%char s = true -> decode s = Some s.
Proof. intros H. unfold decode. rewrite decode_run_plain by exact H. reflexivity. Qed.

Lemma plist_content_split self :
  plist_content self
  = plist_head +:+ app_name self +:+ plist_mid +:+ app_path self +:+ plist_tail.
Proof. reflexivity. Qed.

(** For a name and a path made of printable ASCII characters other than
    [<], [&] and [>], the property list [enable] writes is well formed and
    reads back as the three keys [Label], the name; [ProgramArguments],
    the one-element sequence of the path; and [RunAtLoad], true. *)
Lemma plist_of_plain_strings (self : StartupManager) :
  xml_plain (app_name self) = true ->
  xml_plain (app_path self) = true ->
  parse_plist (plist_content self)
  = Some (PDict [("Label", PString (app_name self));
                 ("ProgramArguments", PArray [PString (app_path self)]);
                 ("RunAtLoad", PBool true)]).
Proof.
  destruct self as [name path sys]. cbn [app_name app_path]. intros Hn Hp.
  pose proof (chardata_plain _ Hn) as Hnc.
  pose proof (chardata_plain _ Hp) as Hpc.
  apply xml_plain_lacks in Hn as (Hn1 & Hn2 & _).
  apply xml_plain_lacks in Hp as (Hp1 & Hp2 & _).
  unfold parse_plist, lex. rewrite plist_content_split, lex_run_app.
  cbn [app_name app_path].
  set (x := lex_run (InText "", []) plist_head). vm_compute in x. subst x.
  cbv iota beta. rewrite lex_run_app, (lex_run_text _ _ _ Hn1).
  cbv iota beta. rewrite lex_run_app.
  match goal with
  | |- context [lex_run ?st plist_mid] =>
      set (x := lex_run st plist_mid); vm_compute in x; subst x
  end.
  cbv iota beta. rewrite lex_run_app, (lex_run_text _ _ _ Hp1).
  cbv iota beta.
  match goal with
  | |- context [lex_run ?st plist_tail] =>
      set (x := lex_run st plist_tail); vm_compute in x; subst x
  end.
  cbv iota beta. cbn [rev app mbind option_bind].
  lazy -[decode chardata].
  rewrite Hnc, Hpc, (decode_plain _ Hn2), (decode_plain _ Hp2).
  lazy. reflexivity.
Qed.

(** The property list of the sample application. *)
Lemma plist_of_sample :
  parse_plist (plist_content Hosts.sample_darwin)
  = Some (PDict [("Label", PString "Sample");
                 ("ProgramArguments", PArray [PString "/usr/local/bin/sample"]);
                 ("RunAtLoad", PBool true)]).
Proof. exact (plist_of_plain_strings Hosts.sample_darwin eq_refl eq_refl). Qed.

(** C7. Nothing escapes the name and the path on their way into the
    property list. For the name [R&D], [enable] writes a document with
    the element [<string>R&D</string>] in it: it is not well formed, and
    nothing is read back from it. *)
Theorem plist_ampersand_not_well_formed :
  (exists f,
     files (snd (enable Hosts.darwin Hosts.research Hosts.fresh))
       !! "/Users/user/Library/LaunchAgents/R&D.plist" = Some f /\
     f_body f = Text (plist_content Hosts.research)) /\
  occurs_in "<string>R&D</string>" (plist_content Hosts.research) /\
  parse_plist (plist_content Hosts.research) = None /\
  ~ plist_round_trips Hosts.research.
Proof.
  assert (H : parse_plist (plist_content Hosts.research) = None)
    by (vm_compute; reflexivity).
  split; [|split; [|split; [exact H|]]].
  - eexists. split; [vm_compute; reflexivity|reflexivity].
  - exists (substring 0 (String.length plist_head - 8) plist_head),
           (substring 9 (String.length plist_mid - 9) plist_mid
            +:+ app_path Hosts.research +:+ plist_tail).
    vm_compute. reflexivity.
  - unfold plist_round_trips. rewrite H. discriminate.
Qed.

Lemma split_on_lacks c s rest :
  lacks c s = true -> split_on c (s +:+ String c rest) = s :: split_on c rest.
Proof.
  unfold lacks. induction s as [|a s IH]; intros H.
  - change ("" +:+ String c rest) with (String c rest). cbn [split_on].
    unfold is_char. rewrite Ascii.eqb_refl. reflexivity.
  - cbn [str_forall] in H. apply andb_true_iff in H as [Ha Hs].
    rewrite append_cons. cbn [split_on]. apply negb_true_iff in Ha.
    rewrite Ha, (IH Hs). reflexivity.
Qed.

Lemma desktop_content_lines self :
  let nl := ascii_of_nat 10 in
  desktop_content self
  = "[Desktop Entry]" +:+ String nl
      ("Type=Application" +:+ String nl
         (("Name=" +:+ app_name self) +:+ String nl
            (("Exec=" +:+ app_path self) +:+ String nl
               ("Terminal=false" +:+ String nl
                  ("X-GNOME-Autostart-enabled=true" +:+ String nl ""))))).
Proof. reflexivity. Qed.

Lemma desktop_lines_eq self :
  lacks (ascii_of_nat 10) (app_name self) = true ->
  lacks (ascii_of_nat 10) (app_path self) = true ->
  desktop_lines (desktop_content self)
  = ["[Desktop Entry]"; "Type=Application"; "Name=" +:+ app_name self;
     "Exec=" +:+ app_path self; "Terminal=false";
     "X-GNOME-Autostart-enabled=true"; ""].
Proof.
  intros Hn Hp. unfold desktop_lines. rewrite desktop_content_lines. cbv zeta.
  set (nl := ascii_of_nat 10) in *.
  rewrite (split_on_lacks nl "[Desktop Entry]" _ eq_refl).
  rewrite (split_on_lacks nl "Type=Application" _ eq_refl).
  rewrite (split_on_lacks nl ("Name=" +:+ app_name self) _ Hn).
  rewrite (split_on_lacks nl ("Exec=" +:+ app_path self) _ Hp).
  rewrite (split_on_lacks nl "Terminal=false" _ eq_refl).
  rewrite (split_on_lacks nl "X-GNOME-Autostart-enabled=true" _ eq_refl).
  reflexivity.
Qed.

Lemma init_return_inv e name path w self w1 :
  __init__ e name path w = (Return self, w1) ->
  self = {| app_name := name; app_path := abspath e path;
            system := e_system e |} /\
  w1 = log (Stat (abspath e path)) w /\
  e_fault e (Stat (abspath e path)) = None /\
  path_present (abspath e path) w = true.
Proof.
  rewrite init_eq. intros H.
  destruct (e_fault e (Stat (abspath e path))); [discriminate|].
  destruct (path_present (abspath e path) w); [|discriminate].
  injection H as <- <-. auto.
Qed.

(** C8, as the code has it. When neither the name nor the absolute path
    has a line feed in it, the desktop entry is the header line and five
    [key=value] lines, one to a line and unquoted: [Name] is the name
    given to the constructor as it was given, and [Exec] is the
    [os.path.abspath] of the path given, which is the path itself only
    when that was absolute and normal already. *)
Theorem desktop_entry_lines
  (e : env) (name path : string) (w : world) (self : StartupManager)
  (w1 : world) :
  __init__ e name path w = (Return self, w1) ->
  lacks (ascii_of_nat 10) name = true ->
  lacks (ascii_of_nat 10) (abspath e path) = true ->
  desktop_lines (desktop_content self)
  = ["[Desktop Entry]"; "Type=Application"; "Name=" +:+ name;
     "Exec=" +:+ abspath e path; "Terminal=false";
     "X-GNOME-Autostart-enabled=true"; ""] /\
  desktop_entries (desktop_content self)
  = expected_entries name (abspath e path).
Proof.
  intros H Hn Hp. apply init_return_inv in H as (-> & _).
  assert (Hl := desktop_lines_eq {| app_name := name;
                                    app_path := abspath e path;
                                    system := e_system e |} Hn Hp).
  cbn [app_name app_path] in Hl. split; [exact Hl|].
  unfold desktop_entries. rewrite Hl. reflexivity.
Qed.

(** Built with the relative path [sample] in [/usr/local/bin]. *)
Lemma desktop_entry_lines_witness :
  exists self w1,
    __init__ Hosts.linux "Sample" "sample" Hosts.fresh = (Return self, w1) /\
    desktop_entries (desktop_content self)
    = [("Type", "Application"); ("Name", "Sample");
       ("Exec", "/usr/local/bin/sample"); ("Terminal", "false");
       ("X-GNOME-Autostart-enabled", "true")].
Proof.
  assert (Hi : fst (__init__ Hosts.linux "Sample" "sample" Hosts.fresh)
               = Return Hosts.sample) by (vm_compute; reflexivity).
  apply result_world in Hi.
  exists Hosts.sample, (snd (__init__ Hosts.linux "Sample" "sample" Hosts.fresh)).
  split; [exact Hi|].
  exact (proj2 (desktop_entry_lines Hosts.linux "Sample" "sample" Hosts.fresh
                  _ _ Hi eq_refl eq_refl)).
Defined.

(** C8, as the specification words it, fails for a relative path: [Exec]
    is not the path that was given. *)
Lemma desktop_exec_not_verbatim :
  ~ desktop_entry_verbatim Hosts.linux "Sample" "sample" Hosts.fresh.
Proof.
  intros H.
  assert (Hi : fst (__init__ Hosts.linux "Sample" "sample" Hosts.fresh)
               = Return Hosts.sample) by (vm_compute; reflexivity).
  apply result_world in Hi. specialize (H _ _ Hi).
  vm_compute in H. discriminate H.
Qed.

(** ** The constructor *)

Lemma init_not_found e name path w :
  e_fault e (Stat (abspath e path)) <> None \/
  path_present (abspath e path) w = false ->
  __init__ e name path w
  = (Raise (FileNotFoundError
              ("Application path not found: " +:+ abspath e path)),
     log (Stat (abspath e path)) w).
Proof.
  rewrite init_eq. intros [H|H].
  - destruct (e_fault e (Stat (abspath e path))); [reflexivity|congruence].
  - rewrite H. destruct (e_fault e (Stat (abspath e path))); reflexivity.
Qed.

(** C10. The constructor keeps [os.path.abspath] of the path it is given:
    a relative path is joined to the working directory of the process and
    normalised, there and then. It is this absolute path whose existence
    is checked, and this path that goes into the property list, the
    desktop entry and the target of the shortcut. *)
Theorem constructor_stores_abspath
  (e : env) (name path : string) (w : world) (self : StartupManager)
  (w1 : world) :
  __init__ e name path w = (Return self, w1) ->
  app_path self = abspath e path /\
  (op_isabs (e_path e) path = false ->
   app_path self
   = op_normpath (e_path e) (op_join (e_path e) (e_cwd e) path)) /\
  (op_isabs (e_path e) path = true ->
   app_path self = op_normpath (e_path e) path) /\
  (trace w1 = trace w ++ [Stat (abspath e path)] /\
   path_present (abspath e path) w = true) /\
  occurs_in ("<string>" +:+ abspath e path +:+ "</string>")
    (plist_content self) /\
  occurs_in ("Exec=" +:+ abspath e path +:+ LF) (desktop_content self) /\
  (forall shortcut_path,
     occurs_in ("$Shortcut.TargetPath = '" +:+ abspath e path +:+ "'")
       (ps_command shortcut_path self)).
Proof.
  intros H. apply init_return_inv in H as (-> & -> & _ & Hp).
  cbn [app_path app_name]. split; [reflexivity|].
  split; [unfold abspath; intros ->; reflexivity|].
  split; [unfold abspath; intros ->; reflexivity|].
  split; [split; [reflexivity|exact Hp]|].
  split; [|split].
  - exists (plist_head +:+ name +:+ "</string>" +:+ LF +:+
            "    <key>ProgramArguments</key>" +:+ LF +:+
            "    <array>" +:+ LF +:+ "        "),
           (LF +:+ "    </array>" +:+ LF +:+
            "    <key>RunAtLoad</key>" +:+ LF +:+
            "    <true/>" +:+ LF +:+ "</dict>" +:+ LF +:+ "</plist>" +:+ LF).
    rewrite plist_content_split. cbn [app_path app_name].
    rewrite !append_assoc. reflexivity.
  - exists ("[Desktop Entry]" +:+ LF +:+ "Type=Application" +:+ LF +:+
            "Name=" +:+ name +:+ LF),
           ("Terminal=false" +:+ LF +:+ "X-GNOME-Autostart-enabled=true" +:+ LF).
    unfold desktop_content. cbn [app_path app_name].
    rewrite !append_assoc. reflexivity.
  - intros sp.
    exists (LF +:+
            "                $WshShell = New-Object -comObject WScript.Shell"
            +:+ LF +:+
            "                $Shortcut = $WshShell.CreateShortcut('" +:+ sp
            +:+ "')" +:+ LF +:+ "                "),
           (LF +:+ "                $Shortcut.Save()" +:+ LF +:+
            "                ").
    unfold ps_command. cbn [app_path app_name].
    rewrite !append_assoc. reflexivity.
Qed.

(** Built with the relative path [sample] in [/usr/local/bin]: the path
    kept is [/usr/local/bin/sample]. *)
Lemma constructor_stores_abspath_witness :
  exists self w1,
    __init__ Hosts.linux "Sample" "sample" Hosts.fresh = (Return self, w1) /\
    app_path self = "/usr/local/bin/sample" /\
    trace w1 = [Stat "/usr/local/bin/sample"].
Proof.
  assert (Hi : fst (__init__ Hosts.linux "Sample" "sample" Hosts.fresh)
               = Return Hosts.sample) by (vm_compute; reflexivity).
  apply result_world in Hi.
  exists Hosts.sample, (snd (__init__ Hosts.linux "Sample" "sample" Hosts.fresh)).
  destruct (constructor_stores_abspath Hosts.linux "Sample" "sample"
              Hosts.fresh _ _ Hi) as (Hp & _ & _ & [Ht _] & _).
  split; [exact Hi|]. split; [exact Hp|exact Ht].
Defined.

(** ** Runs of the specification's scenarios *)

Example normpath_collapses :
  posixpath.normpath "/usr//local/./bin/../bin/sample" = "/usr/local/bin/sample".
Proof. vm_compute. reflexivity. Qed.

Example normpath_keeps_two_slashes : posixpath.normpath "//a/b/" = "//a/b".
Proof. vm_compute. reflexivity. Qed.

Example normpath_parent_of_root : posixpath.normpath "/.." = "/".
Proof. vm_compute. reflexivity. Qed.

Example normpath_relative_parent : posixpath.normpath "a/../.." = "..".
Proof. vm_compute. reflexivity. Qed.

(** The sample application on Linux: enabled, the entry is there with
    mode 0755 and the five lines; disabled, it is gone. *)
Example linux_scenario :
  let w1 := snd (enable Hosts.linux Hosts.sample Hosts.fresh) in
  let w2 := snd (disable Hosts.linux Hosts.sample w1) in
  fst (enable Hosts.linux Hosts.sample Hosts.fresh) = Return true /\
  files w1 !! "/home/user/.config/autostart/Sample.desktop"
  = Some {| f_body := Text (desktop_content Hosts.sample); f_mode := 493 |} /\
  fst (disable Hosts.linux Hosts.sample w1) = Return true /\
  files w2 !! "/home/user/.config/autostart/Sample.desktop" = None /\
  fst (is_enabled Hosts.linux Hosts.sample w2) = Return (Some false).
Proof. vm_compute. repeat split; reflexivity. Qed.

(** With no artifact, [disable] has nothing to do and returns true. *)
Example disable_without_artifact :
  fst (disable Hosts.darwin Hosts.sample_darwin Hosts.fresh) = Return true /\
  trace (snd (disable Hosts.darwin Hosts.sample_darwin Hosts.fresh))
  = [Makedirs "/Users/user/Library/LaunchAgents";
     Stat "/Users/user/Library/LaunchAgents/Sample.plist"].
Proof. vm_compute. split; reflexivity. Qed.

(** A name with markup in it puts a fourth key into the property list. *)
Example plist_markup_in_name :
  parse_plist
    (plist_content {| app_name := "a</string><key>X</key><string>b";
                      app_path := "/usr/local/bin/sample";
                      system := "Darwin" |})
  = Some (PDict [("Label", PString "a"); ("X", PString "b");
                 ("ProgramArguments", PArray [PString "/usr/local/bin/sample"]);
                 ("RunAtLoad", PBool true)]).
Proof. vm_compute. reflexivity. Qed.

(** * Further properties of the code *)

(** ** What the operations leave alone *)

Section Post.

Variable R : world -> world -> Prop.
Hypothesis R_refl : forall w, R w w.
Hypothesis R_trans : forall a b c, R a b -> R b c -> R a c.

Lemma post_ret {A} (a : A) (Q : A -> Prop) : Q a -> post (ret a) Q R.
Proof. intros H w. cbn. auto. Qed.

Lemma post_raise {A} ex (Q : A -> Prop) : post (raise ex) Q R.
Proof. intros w. cbn. auto. Qed.

Lemma post_bind {A B} (c : M A) (k : A -> M B) Q Q' :
  post c Q R -> (forall a, Q a -> post (k a) Q' R) -> post (bind c k) Q' R.
Proof.
  intros Hc Hk w. unfold bind. specialize (Hc w).
  destruct (c w) as [[a|ex] w0]; [|exact Hc].
  destruct Hc as [Ha Hw]. specialize (Hk a Ha w0).
  destruct (k a w0) as [[b|ex] w1].
  - destruct Hk. eauto.
  - eauto.
Qed.

Lemma post_weaken {A} (c : M A) (Q Q' : A -> Prop) :
  post c Q R -> (forall a, Q a -> Q' a) -> post c Q' R.
Proof.
  intros Hc HQ w. specialize (Hc w).
  destruct (c w) as [[a|ex] w0]; [destruct Hc; auto|exact Hc].
Qed.

Lemma post_if {A} (b : bool) (c1 c2 : M A) Q :
  post c1 Q R -> post c2 Q R -> post (if b then c1 else c2) Q R.
Proof. destruct b; auto. Qed.

(** The handlers of [enable] and [disable] only print. *)
Lemma post_try_except_print (body : M bool) (msg : exn -> string) Q :
  (forall w line, R w (snd (print line w))) ->
  post body Q R ->
  post (try_except body (fun ex => print (msg ex) ;;; ret false))
    (fun _ => True) R.
Proof.
  intros Hprint Hb w. unfold try_except. specialize (Hb w).
  destruct (body w) as [[b|ex] w0].
  - destruct Hb. auto.
  - rewrite is_Exception_all. cbn. split; [exact I|].
    eapply R_trans; [exact Hb|]. apply (Hprint w0).
Qed.

(** The resolver, given what [os.makedirs] does to [R]. *)
Lemma post_get_startup_location e self :
  supported (system self) ->
  (forall d, location_dir e self = Some d ->
             post (os_makedirs e d) (fun _ => True) R) ->
  post (_get_startup_location e self)
    (fun loc => location e self = Some loc) R.
Proof.
  intros Hs Hmk w. rewrite get_startup_location_eq by exact Hs.
  destruct (location e self) as [loc|]; [|apply R_refl].
  destruct (location_dir e self) as [d|]; [|auto].
  apply (post_bind _ _ (fun _ => True)); [apply Hmk; reflexivity|].
  intros _ _. apply post_ret. reflexivity.
Qed.

End Post.

Lemma footprint_refl p d w : footprint p d w w.
Proof. unfold footprint. repeat split; auto. Qed.

Lemma footprint_trans p d a b c :
  footprint p d a b -> footprint p d b c -> footprint p d a c.
Proof.
  intros (H1 & H2 & H3 & H4 & H5) (K1 & K2 & K3 & K4 & K5).
  split; [|split; [|split; [|split]]].
  - intros q Hq. rewrite (K1 q Hq). auto.
  - intros q Hq. split; intros Hin.
    + apply (H2 q Hq), (K2 q Hq), Hin.
    + apply (K2 q Hq), (H2 q Hq), Hin.
  - auto.
  - intros x Hx. destruct (K4 x Hx); auto.
  - intros Hd. assert (E : dirs b = dirs a) by auto.
    rewrite <- E. apply K5. intros y Hy. rewrite E. auto.
Qed.

Lemma nothing_written_refl w : nothing_written w w.
Proof. intros q. auto. Qed.

Lemma nothing_written_trans a b c :
  nothing_written a b -> nothing_written b c -> nothing_written a c.
Proof.
  intros H K q. destruct (K q) as [E|E]; [rewrite E; apply H|auto].
Qed.

(** A step that leaves files, directories and agents as they are. *)
Lemma footprint_same p d w w' :
  files w' = files w -> dirs w' = dirs w -> loaded w' = loaded w ->
  footprint p d w w'.
Proof. intros Hf Hd Hl. unfold footprint. rewrite Hf, Hd, Hl. repeat split; auto. Qed.

Lemma nothing_written_same w w' : files w' = files w -> nothing_written w w'.
Proof. intros Hf q. rewrite Hf. auto. Qed.

Lemma footprint_os_makedirs e p d :
  post (os_makedirs e d) (fun _ => True) (footprint p (Some d)).
Proof.
  intros w. unfold os_makedirs, call.
  destruct (e_fault e (Makedirs d)); [apply footprint_same; reflexivity|].
  cbn. destruct (files w !! d); [apply footprint_same; reflexivity|].
  split; [exact I|]. unfold footprint. cbn.
  split; [auto|]. split; [tauto|]. split; [|split].
  - intros x Hx. apply elem_of_union_r, Hx.
  - intros x Hx. apply elem_of_union in Hx as [Hx|Hx]; [|auto].
    apply elem_of_singleton in Hx as ->.
    right. exists d. split; [reflexivity|apply prefix_refl].
  - intros Hd. specialize (Hd d eq_refl).
    apply set_eq. intros x. rewrite elem_of_union, elem_of_singleton.
    split; [intros [->|Hx]; assumption|auto].
Qed.

Lemma footprint_Path_exists e p d q :
  post (Path_exists e q) (fun _ => True) (footprint p d).
Proof.
  intros w. rewrite Path_exists_eq.
  destruct (e_fault e (Stat q)); [|split; [exact I|]];
    apply footprint_same; reflexivity.
Qed.

(** A step that changes the file at [p] and nothing else. *)
Lemma footprint_at p d w w' :
  (forall q, q <> p -> files w' !! q = files w !! q) ->
  dirs w' = dirs w -> loaded w' = loaded w ->
  footprint (Some p) d w w'.
Proof.
  intros Hf Hd Hl. unfold footprint. rewrite Hd, Hl. repeat split; auto.
  intros q Hq. apply Hf. congruence.
Qed.

Lemma store_lookup_ne e p body w q :
  q <> p -> files (store e p body w) !! q = files w !! q.
Proof. intros H. unfold store. cbn. apply lookup_insert_ne. congruence. Qed.

Lemma footprint_open_w e p d :
  post (open_w e p) (fun _ => True) (footprint (Some p) d).
Proof.
  intros w. unfold open_w, call.
  destruct (e_fault e (OpenW p)); [apply footprint_same; reflexivity|].
  cbn. case_bool_decide; [apply footprint_same; reflexivity|].
  split; [exact I|]. apply footprint_at; [|reflexivity..].
  intros q Hq. apply (store_lookup_ne e p _ (log (OpenW p) w) q Hq).
Qed.

Lemma footprint_f_write e p data d :
  post (f_write e p data) (fun _ => True) (footprint (Some p) d).
Proof.
  intros w. unfold f_write, call.
  destruct (e_fault e (Write p data)); [apply footprint_same; reflexivity|].
  split; [exact I|]. apply footprint_at; [|reflexivity..].
  intros q Hq. apply (store_lookup_ne e p _ (log (Write p data) w) q Hq).
Qed.

Lemma footprint_os_chmod e p mode d :
  post (os_chmod e p mode) (fun _ => True) (footprint (Some p) d).
Proof.
  intros w. unfold os_chmod, call.
  destruct (e_fault e (Chmod p mode)); [apply footprint_same; reflexivity|].
  cbn. destruct (files w !! p).
  - split; [exact I|]. apply footprint_at; [|reflexivity..].
    intros q Hq. cbn. apply lookup_insert_ne. congruence.
  - case_bool_decide; [split; [exact I|]|]; apply footprint_same; reflexivity.
Qed.

Lemma footprint_os_remove e p d :
  post (os_remove e p) (fun _ => True) (footprint (Some p) d).
Proof.
  intros w. unfold os_remove, call.
  destruct (e_fault e (Remove p)); [apply footprint_same; reflexivity|].
  cbn. destruct (files w !! p).
  - split; [exact I|]. apply footprint_at; [|reflexivity..].
    intros q Hq. cbn. apply lookup_delete_ne. congruence.
  - case_bool_decide; apply footprint_same; reflexivity.
Qed.

Lemma footprint_launchctl e verb p d :
  verb = "load" \/ verb = "unload" ->
  post (subprocess_run e ["launchctl"; verb; p]) (fun _ => True)
    (footprint (Some p) d).
Proof.
  intros Hv w. unfold subprocess_run, call.
  destruct (e_fault e (Spawn ["launchctl"; verb; p]));
    [apply footprint_same; reflexivity|].
  cbn -[proc_effect].
  destruct (e_exit e ["launchctl"; verb; p] =? 0);
    [|apply footprint_same; reflexivity].
  split; [exact I|].
  destruct Hv as [-> | ->]; cbn; unfold footprint; cbn; repeat split; auto.
  - intros Hin. apply elem_of_union in Hin as [Hin|Hin]; [|exact Hin].
    apply elem_of_singleton in Hin. congruence.
  - intros Hin. apply elem_of_union_r, Hin.
  - intros Hin. apply elem_of_difference in Hin as [Hin _]. exact Hin.
  - intros Hin. apply elem_of_difference. split; [exact Hin|].
    rewrite elem_of_singleton. congruence.
Qed.

Lemma footprint_print p d w line : footprint p d w (snd (print line w)).
Proof. apply footprint_same; reflexivity. Qed.

Lemma nothing_written_print w line : nothing_written w (snd (print line w)).
Proof. apply nothing_written_same. reflexivity. Qed.

Lemma nothing_written_os_makedirs e d :
  post (os_makedirs e d) (fun _ => True) nothing_written.
Proof.
  intros w. destruct (os_makedirs e d w) as [[u|ex] w1] eqn:H;
    apply os_makedirs_frame in H as (Hf & _);
    [split; [exact I|]|]; apply nothing_written_same, Hf.
Qed.

Lemma nothing_written_Path_exists e q :
  post (Path_exists e q) (fun _ => True) nothing_written.
Proof.
  intros w. rewrite Path_exists_eq.
  destruct (e_fault e (Stat q)); [|split; [exact I|]];
    apply nothing_written_same; reflexivity.
Qed.

Lemma nothing_written_os_remove e p :
  post (os_remove e p) (fun _ => True) nothing_written.
Proof.
  intros w. unfold os_remove, call.
  destruct (e_fault e (Remove p)); [apply nothing_written_same; reflexivity|].
  cbn. destruct (files w !! p).
  - split; [exact I|]. intros q. cbn.
    destruct (decide (p = q)) as [<-|Hne].
    + right. apply lookup_delete_eq.
    + left. apply lookup_delete_ne, Hne.
  - case_bool_decide; apply nothing_written_same; reflexivity.
Qed.

Lemma nothing_written_launchctl e verb p :
  verb = "load" \/ verb = "unload" ->
  post (subprocess_run e ["launchctl"; verb; p]) (fun _ => True) nothing_written.
Proof.
  intros Hv w. unfold subprocess_run, call.
  destruct (e_fault e (Spawn ["launchctl"; verb; p]));
    [apply nothing_written_same; reflexivity|].
  cbn -[proc_effect].
  destruct (e_exit e ["launchctl"; verb; p] =? 0);
    [|apply nothing_written_same; reflexivity].
  split; [exact I|].
  destruct Hv as [-> | ->]; apply nothing_written_same; reflexivity.
Qed.

(** [disable], given what its calls do to [R]. *)
Lemma post_disable_try (R : world -> world -> Prop) e self :
  (forall w, R w w) -> (forall a b c, R a b -> R b c -> R a c) ->
  supported (system self) ->
  (forall d, location_dir e self = Some d ->
             post (os_makedirs e d) (fun _ => True) R) ->
  (forall q, post (Path_exists e q) (fun _ => True) R) ->
  (forall q, artifact e self = Some q ->
             post (os_remove e q) (fun _ => True) R) ->
  (forall q, artifact e self = Some q ->
             post (subprocess_run e ["launchctl"; "unload"; q])
               (fun _ => True) R) ->
  post (disable_try e self) (fun _ => True) R.
Proof.
  intros Rr Rt Hs Hmk Hex Hrm Hun. unfold disable_try.
  apply (post_bind R Rt _ _ (fun loc => location e self = Some loc));
    [apply post_get_startup_location; auto|].
  intros loc Hloc.
  assert (Hart := artifact_eq e self). rewrite Hloc in Hart.
  apply (post_bind R Rt _ _ (fun _ => True)); [|intros; apply post_ret; auto].
  destruct Hs as [Hs|[Hs|Hs]]; rewrite Hs in *;
    cbn [String.eqb Ascii.eqb Bool.eqb andb] in *;
    (apply (post_bind R Rt _ _ (fun _ => True)); [apply Hex|]);
    intros found _; apply post_if; try (apply post_ret; auto).
  - apply Hrm, Hart.
  - apply (post_bind R Rt _ _ (fun _ => True)); [apply Hun, Hart|].
    intros _ _. apply Hrm, Hart.
  - apply Hrm, Hart.
Qed.

(** X8. On every supported platform [disable()] creates and changes no
    file: whatever happens, every path holds afterwards what it held
    before, or nothing; the one file that can go is the artifact, and no
    agent but the artifact is unloaded. No directory goes; a directory
    that comes is on the way to the one the resolver makes, and none
    comes when that one is there already. *)
Theorem disable_removes_at_most_the_artifact
  (e : env) (self : StartupManager) (w : world) :
  supported (system self) ->
  nothing_written w (snd (disable e self w)) /\
  footprint (artifact e self) (location_dir e self) w (snd (disable e self w)).
Proof.
  intros Hs. split.
  - pose proof (post_try_except_print nothing_written nothing_written_trans
                  (disable_try e self)
                  (fun ex => "Error disabling startup: " +:+ exn_str ex)
                  (fun _ => True) nothing_written_print) as H.
    specialize (H (post_disable_try nothing_written e self
                     nothing_written_refl nothing_written_trans Hs
                     (fun d _ => nothing_written_os_makedirs e d)
                     (nothing_written_Path_exists e)
                     (fun q _ => nothing_written_os_remove e q)
                     (fun q _ => nothing_written_launchctl e "unload" q
                                   (or_intror eq_refl))) w).
    unfold disable.
    destruct (try_except _ _ w) as [[b|ex] w']; [apply H|exact H].
  - set (R := footprint (artifact e self) (location_dir e self)).
    assert (Rt : forall a b c, R a b -> R b c -> R a c)
      by (intros a b c; apply footprint_trans).
    pose proof (post_try_except_print R Rt (disable_try e self)
                  (fun ex => "Error disabling startup: " +:+ exn_str ex)
                  (fun _ => True)
                  (fun w0 line => footprint_print _ _ w0 line)) as H.
    assert (Hd : post (disable_try e self) (fun _ => True) R).
    { apply post_disable_try; auto.
      - intros w0. apply footprint_refl.
      - intros d Hd. subst R. rewrite Hd. apply footprint_os_makedirs.
      - intros q. apply footprint_Path_exists.
      - intros q Hq. subst R. rewrite Hq. apply footprint_os_remove.
      - intros q Hq. subst R. rewrite Hq. apply footprint_launchctl. auto. }
    specialize (H Hd w). unfold disable.
    destruct (try_except _ _ w) as [[b|ex] w']; [apply H|exact H].
Qed.

(** With the agent installed and [launchctl] working, [disable()] takes
    the property list away and leaves the executable. *)
Lemma disable_removes_at_most_the_artifact_witness :
  let w' := snd (disable Hosts.darwin Hosts.sample_darwin
                   Hosts.installed_darwin) in
  files w' !! "/usr/local/bin/sample" = Some Hosts.executable /\
  files w' !! "/Users/user/Library/LaunchAgents/Sample.plist" = None.
Proof.
  intros w'.
  destruct (disable_removes_at_most_the_artifact Hosts.darwin
              Hosts.sample_darwin Hosts.installed_darwin
              (or_intror (or_introl eq_refl))) as [_ (Hf & _)].
  split.
  - subst w'. rewrite (Hf "/usr/local/bin/sample"); [reflexivity|].
    vm_compute. discriminate.
  - vm_compute. reflexivity.
Defined.

(** [enable] on macOS and Linux, within its footprint. *)
Lemma footprint_write_file e p data d :
  post (write_file e p data) (fun _ => True) (footprint (Some p) d).
Proof.
  unfold write_file.
  apply (post_bind _ (footprint_trans _ _) _ _ (fun _ => True));
    [apply footprint_open_w|].
  intros _ _. apply footprint_f_write.
Qed.

(** X7. On macOS and Linux [enable()], whether it succeeds or fails on
    the way, touches no file but the artifact and loads no agent but the
    artifact. It removes no directory; a directory it makes is on the way
    to the one the resolver makes, and it makes none when that one is
    there already. *)
Theorem enable_touches_only_the_artifact
  (e : env) (self : StartupManager) (w : world) :
  system self = "Darwin" \/ system self = "Linux" ->
  footprint (artifact e self) (location_dir e self) w (snd (enable e self w)).
Proof.
  intros Hs.
  assert (Hsup : supported (system self)) by (unfold supported; tauto).
  set (R := footprint (artifact e self) (location_dir e self)).
  assert (Rt : forall a b c, R a b -> R b c -> R a c)
    by (intros a b c; apply footprint_trans).
  assert (Rr : forall a, R a a) by (intros a; apply footprint_refl).
  assert (Ht : post (enable_try e self) (fun _ => True) R).
  { unfold enable_try.
    apply (post_bind R Rt _ _ (fun loc => location e self = Some loc)).
    { apply post_get_startup_location; auto.
      intros d Hd. unfold R. rewrite Hd. apply footprint_os_makedirs. }
    intros loc Hloc.
    assert (Hart := artifact_eq e self). rewrite Hloc in Hart.
    apply (post_bind R Rt _ _ (fun _ => True)); [|intros; apply post_ret; auto].
    destruct Hs as [Hs|Hs]; rewrite Hs in *;
      cbn [String.eqb Ascii.eqb Bool.eqb andb] in *;
      unfold R; rewrite Hart;
      (apply (post_bind _ (footprint_trans _ _) _ _ (fun _ => True));
       [apply footprint_write_file|intros _ _]).
    - apply (post_bind _ (footprint_trans _ _) _ _ (fun _ => True));
        [apply footprint_os_chmod|intros _ _].
      apply footprint_launchctl. auto.
    - apply footprint_os_chmod. }
  pose proof (post_try_except_print R Rt (enable_try e self)
                (fun ex => "Error enabling startup: " +:+ exn_str ex)
                (fun _ => True)
                (fun w0 line => footprint_print _ _ w0 line) Ht w) as H.
  unfold enable. destruct (try_except _ _ w) as [[b|ex] w']; [apply H|exact H].
Qed.

(** On a Linux host that refuses the writing, and on one that allows it,
    the executable is as it was. *)
Lemma enable_touches_only_the_artifact_witness :
  files (snd (enable Hosts.linux_readonly Hosts.sample Hosts.fresh))
    !! "/usr/local/bin/sample" = Some Hosts.executable /\
  files (snd (enable Hosts.linux Hosts.sample Hosts.fresh))
    !! "/usr/local/bin/sample" = Some Hosts.executable.
Proof.
  split.
  - destruct (enable_touches_only_the_artifact Hosts.linux_readonly
                Hosts.sample Hosts.fresh (or_intror eq_refl)) as (Hf & _).
    rewrite (Hf "/usr/local/bin/sample"); [reflexivity|].
    vm_compute. discriminate.
  - destruct (enable_touches_only_the_artifact Hosts.linux
                Hosts.sample Hosts.fresh (or_intror eq_refl)) as (Hf & _).
    rewrite (Hf "/usr/local/bin/sample"); [reflexivity|].
    vm_compute. discriminate.
Defined.

(** ** [disable], case by case *)

Lemma disable_true_inv e self w w1 :
  disable e self w = (Return true, w1) ->
  disable_try e self w = (Return true, w1).
Proof.
  unfold disable, try_except.
  destruct (disable_try e self w) as [[b|ex] w0].
  - intros [= -> ->]. reflexivity.
  - rewrite is_Exception_all. discriminate.
Qed.

(** Once the location is resolved, [disable] probes the artifact and, when
    it is there, unloads it (on macOS) and removes it. *)
Lemma disable_try_resolved e self w loc w1 p :
  supported (system self) ->
  _get_startup_location e self w = (Return loc, w1) ->
  artifact e self = Some p ->
  disable_try e self w
  = (found <- Path_exists e p ;;
     (if found : bool
      then if String.eqb (system self) "Darwin"
           then subprocess_run e ["launchctl"; "unload"; p] ;;; os_remove e p
           else os_remove e p
      else ret tt) ;;;
     ret true) w1.
Proof.
  intros Hs Hres Hart. unfold disable_try. unfold bind at 1. rewrite Hres.
  apply get_startup_location_return in Hres as [Hloc _]; [|exact Hs].
  rewrite artifact_eq, Hloc in Hart. injection Hart as <-.
  destruct Hs as [Hs|[Hs|Hs]]; rewrite Hs;
    cbn [String.eqb Ascii.eqb Bool.eqb andb]; rewrite bind_assoc; reflexivity.
Qed.

(** X2. When the location resolves and the probe finds nothing at the
    artifact, [disable()] returns true having done nothing more: no
    program is started, nothing is removed, nothing is printed. *)
Theorem disable_absent_is_noop
  (e : env) (self : StartupManager) (w w1 : world) (loc p : string) :
  supported (system self) ->
  _get_startup_location e self w = (Return loc, w1) ->
  artifact e self = Some p ->
  e_fault e (Stat p) = None ->
  path_present p w1 = false ->
  disable e self w = (Return true, log (Stat p) w1) /\
  files (log (Stat p) w1) = files w /\
  loaded (log (Stat p) w1) = loaded w /\
  stdout (log (Stat p) w1) = stdout w.
Proof.
  intros Hs Hres Hart Hst Hno. split.
  - unfold disable. apply try_except_return.
    rewrite (disable_try_resolved _ _ _ _ _ _ Hs Hres Hart).
    unfold bind at 1. rewrite Path_exists_eq, Hst, Hno. reflexivity.
  - apply get_startup_location_frame in Hres as (Hf & Hl & Ho & _); auto.
Qed.

(** On a fresh macOS account. *)
Lemma disable_absent_is_noop_witness :
  fst (disable Hosts.darwin Hosts.sample_darwin Hosts.fresh) = Return true /\
  files (snd (disable Hosts.darwin Hosts.sample_darwin Hosts.fresh))
  = files Hosts.fresh.
Proof.
  assert (Hres : fst (_get_startup_location Hosts.darwin Hosts.sample_darwin
                        Hosts.fresh)
                 = Return "/Users/user/Library/LaunchAgents/Sample.plist")
    by (vm_compute; reflexivity).
  apply result_world in Hres.
  destruct (disable_absent_is_noop Hosts.darwin Hosts.sample_darwin
              Hosts.fresh _ _ "/Users/user/Library/LaunchAgents/Sample.plist"
              (or_intror (or_introl eq_refl)) Hres eq_refl eq_refl)
    as (Hd & Hf & _).
  { vm_compute. reflexivity. }
  rewrite Hd. split; [reflexivity|exact Hf].
Defined.

(** What a [disable] that returned true has done. *)
Lemma disable_true_cases e self w w' :
  supported (system self) ->
  disable e self w = (Return true, w') ->
  exists loc w1 p,
    _get_startup_location e self w = (Return loc, w1) /\
    artifact e self = Some p /\
    e_fault e (Stat p) = None /\
    dirs w' = dirs w1 /\
    ((path_present p w1 = false /\ files w' = files w1) \/
     (is_Some (files w1 !! p) /\ files w' = delete p (files w1))).
Proof.
  intros Hs H. apply disable_true_inv in H. pose proof H as H0.
  unfold disable_try in H0.
  apply bind_return_inv in H0 as (loc & w1 & Hres & _).
  pose proof (get_startup_location_return _ _ _ _ _ Hs Hres) as [Hloc _].
  assert (Hart : exists p, artifact e self = Some p)
    by (rewrite artifact_eq, Hloc; eauto).
  destruct Hart as [p Hart].
  rewrite (disable_try_resolved _ _ _ _ _ _ Hs Hres Hart) in H.
  exists loc, w1, p. split; [exact Hres|]. split; [exact Hart|].
  apply bind_return_inv in H as (found & w2 & Hex & H).
  rewrite Path_exists_eq in Hex.
  destruct (e_fault e (Stat p)); [discriminate|].
  injection Hex as <- <-. split; [reflexivity|].
  apply bind_return_inv in H as (u & w3 & H & Hret).
  injection Hret as <-.
  destruct (path_present p w1) eqn:Hp.
  - destruct (String.eqb (system self) "Darwin").
    + apply bind_return_inv in H as (u' & w4 & Hun & Hrm).
      apply subprocess_run_return_inv in Hun as (_ & _ & ->).
      apply os_remove_return_inv in Hrm as (_ & Hsome & ->).
      split; [reflexivity|]. right. split; [exact Hsome|reflexivity].
    + apply os_remove_return_inv in H as (_ & Hsome & ->).
      split; [reflexivity|]. right. split; [exact Hsome|reflexivity].
  - assert (Hw3 : w3 = log (Stat p) w1) by (unfold ret in H; congruence).
    subst w3. split; [reflexivity|]. left. split; reflexivity.
Qed.

Lemma path_present_false p w :
  files w !! p = None -> p ∉ dirs w -> path_present p w = false.
Proof.
  intros Hf Hd. unfold path_present.
  rewrite bool_decide_eq_false_2 by (rewrite Hf; intros [? ?]; discriminate).
  rewrite bool_decide_eq_false_2 by exact Hd. reflexivity.
Qed.

Lemma path_present_false_inv p w :
  path_present p w = false -> files w !! p = None /\ p ∉ dirs w.
Proof.
  unfold path_present. intros H. apply orb_false_iff in H as [H1 H2].
  apply bool_decide_eq_false in H1, H2. split; [|exact H2].
  destruct (files w !! p); [exfalso; eauto|reflexivity].
Qed.

(** X3. On a supported platform, when [disable()] has returned true, no
    file is left at the artifact's path; and if that path was not a file
    and a directory at once to begin with, [is_enabled()] then returns
    false. *)
Theorem disabled_after_successful_disable
  (e : env) (self : StartupManager) (w w' : world) (p : string) :
  supported (system self) ->
  disable e self w = (Return true, w') ->
  artifact e self = Some p ->
  files w' !! p = None /\
  ((is_Some (files w !! p) -> p ∉ dirs w) ->
   fst (is_enabled e self w') = Return (Some false)).
Proof.
  intros Hs H Hart.
  destruct (disable_true_cases _ _ _ _ Hs H)
    as (loc & w1 & p' & Hres & Hart' & Hst & Hdirs & Hcases).
  rewrite Hart in Hart'. injection Hart' as <-.
  pose proof (get_startup_location_frame _ _ _ _ _ Hs Hres) as (Hf1 & _).
  pose proof (get_startup_location_return _ _ _ _ _ Hs Hres) as [Hloc Hdir].
  assert (Hgone : files w' !! p = None).
  { destruct Hcases as [[Hp Hf]|[_ Hf]]; rewrite Hf.
    - apply path_present_false_inv in Hp as [Hp _]. exact Hp.
    - apply lookup_delete_eq. }
  split; [exact Hgone|]. intros Hwf.
  assert (Hnd : p ∉ dirs w').
  { rewrite Hdirs. destruct Hcases as [[Hp _]|[Hsome _]].
    - apply path_present_false_inv in Hp as [_ Hp]. exact Hp.
    - rewrite Hf1 in Hsome. specialize (Hwf Hsome).
      destruct (location_dir e self) as [d|].
      + destruct Hdir as (_ & Hfd & ->). cbn.
        rewrite elem_of_union, elem_of_singleton. intros [-> |Hin]; [|auto].
        rewrite Hfd in Hsome. destruct Hsome. discriminate.
      + subst w1. exact Hwf. }
  rewrite is_enabled_eq by exact Hs. unfold bind at 1.
  rewrite get_startup_location_eq, Hloc by exact Hs.
  assert (Hpe : forall w0, files w0 = files w' -> dirs w0 = dirs w' ->
            (b <- Path_exists e p ;; ret (Some b)) w0
            = (Return (Some false), log (Stat p) w0)).
  { intros w0 Hf0 Hd0. unfold bind. rewrite Path_exists_eq, Hst.
    rewrite path_present_false; [reflexivity| |]; congruence. }
  assert (Hp : (if String.eqb (system self) "Windows"
                then path_div e loc (app_name self +:+ ".lnk") else loc) = p).
  { rewrite artifact_eq, Hloc in Hart. congruence. }
  destruct (location_dir e self) as [d|].
  - destruct Hdir as (Hmk & Hfd & Hw1).
    assert (Hfd' : files w' !! d = None).
    { destruct Hcases as [[_ Hf]|[_ Hf]]; rewrite Hf, Hf1.
      - exact Hfd.
      - apply lookup_delete_None. auto. }
    rewrite (bind_return _ _ _ _ _ (os_makedirs_ok e d w' Hmk Hfd')).
    cbn [ret]. rewrite Hp, Hpe; [reflexivity|reflexivity|].
    cbn. rewrite Hdirs, Hw1. cbn. apply union_singleton_twice.
  - rewrite Hp, Hpe; reflexivity.
Qed.

(** The agent installed on macOS, then disabled. *)
Lemma disabled_after_successful_disable_witness :
  let w' := snd (disable Hosts.darwin Hosts.sample_darwin
                   Hosts.installed_darwin) in
  files w' !! "/Users/user/Library/LaunchAgents/Sample.plist" = None /\
  fst (is_enabled Hosts.darwin Hosts.sample_darwin w') = Return (Some false).
Proof.
  intros w'.
  assert (Hd : fst (disable Hosts.darwin Hosts.sample_darwin
                      Hosts.installed_darwin) = Return true)
    by (vm_compute; reflexivity).
  apply result_world in Hd.
  destruct (disabled_after_successful_disable Hosts.darwin
              Hosts.sample_darwin Hosts.installed_darwin _
              "/Users/user/Library/LaunchAgents/Sample.plist"
              (or_intror (or_introl eq_refl)) Hd eq_refl) as [Hg Hq].
  split; [exact Hg|]. apply Hq. intros _.
  apply not_elem_of_compute. vm_compute. reflexivity.
Defined.

(** X9. [enable()] then [disable()]: when [enable()] has returned true
    and the probe, the unloading (on macOS) and the deletion go through,
    [disable()] returns true and the files are those there were before
    [enable()], without the artifact; they are exactly those when there
    was no artifact before. (On Windows for a shell-automation host that
    saves the shortcut where the script says.) *)
Theorem enable_then_disable_restores
  (e : env) (self : StartupManager) (w w1 : world) (p : string) :
  supported (system self) ->
  (system self = "Windows" -> host_saves_shortcut e self) ->
  enable e self w = (Return true, w1) ->
  artifact e self = Some p ->
  e_fault e (Stat p) = None ->
  e_fault e (Remove p) = None ->
  (system self = "Darwin" ->
   e_fault e (Spawn ["launchctl"; "unload"; p]) = None /\
   e_exit e ["launchctl"; "unload"; p] = 0) ->
  exists w2,
    disable e self w1 = (Return true, w2) /\
    files w2 = delete p (files w) /\
    (files w !! p = None -> files w2 = files w).
Proof.
  intros Hs Hhost Hen Hart Hst Hrm Hun.
  destruct (enable_settles e self w w1 Hs Hhost Hen)
    as (p' & f & Hart' & _ & Hfi & Hnext).
  rewrite Hart in Hart'. injection Hart' as <-.
  destruct (Hnext w1 eq_refl eq_refl) as [_ Hq].
  destruct (Hq Hst) as [w2 Hq2].
  rewrite is_enabled_eq in Hq2 by exact Hs.
  apply bind_return_inv in Hq2 as (loc & w1' & Hres & _).
  pose proof (get_startup_location_frame _ _ _ _ _ Hs Hres) as (Hf1 & _).
  assert (Hfp : files w1' !! p = Some f)
    by (rewrite Hf1, Hfi; apply lookup_insert_eq).
  assert (Hdel : delete p (files w1') = delete p (files w))
    by (rewrite Hf1, Hfi; apply delete_insert_eq).
  assert (Htry : exists w2, disable_try e self w1 = (Return true, w2) /\
                            files w2 = delete p (files w1')).
  { rewrite (disable_try_resolved _ _ _ _ _ _ Hs Hres Hart).
    unfold bind at 1. rewrite Path_exists_eq, Hst.
    rewrite (path_present_file _ _ _ Hfp).
    destruct (String.eqb_spec (system self) "Darwin") as [Hd|Hd].
    - destruct (Hun Hd) as [Huf Hux].
      rewrite bind_assoc.
      rewrite (bind_return _ _ _ _ _ (subprocess_run_ok _ _ _ Huf Hux)).
      erewrite bind_return.
      2:{ apply os_remove_ok; [exact Hrm|]. cbn. rewrite Hfp. eauto. }
      eexists. split; reflexivity.
    - erewrite bind_return.
      2:{ apply os_remove_ok; [exact Hrm|]. cbn. rewrite Hfp. eauto. }
      eexists. split; reflexivity. }
  destruct Htry as (w3 & Htry & Hf3). exists w3.
  split; [unfold disable; apply try_except_return, Htry|].
  rewrite Hf3, Hdel. split; [reflexivity|]. apply delete_id.
Qed.

(** On Linux, from a fresh account and back. *)
Lemma enable_then_disable_restores_witness :
  exists w1 w2,
    enable Hosts.linux Hosts.sample Hosts.fresh = (Return true, w1) /\
    disable Hosts.linux Hosts.sample w1 = (Return true, w2) /\
    files w2 = files Hosts.fresh.
Proof.
  assert (Hen : fst (enable Hosts.linux Hosts.sample Hosts.fresh) = Return true)
    by (vm_compute; reflexivity).
  apply result_world in Hen.
  assert (Hw : system Hosts.sample = "Windows" ->
               host_saves_shortcut Hosts.linux Hosts.sample)
    by (intros H; discriminate H).
  assert (Hd : system Hosts.sample = "Darwin" ->
               e_fault Hosts.linux
                 (Spawn ["launchctl"; "unload";
                         "/home/user/.config/autostart/Sample.desktop"]) = None /\
               e_exit Hosts.linux
                 ["launchctl"; "unload";
                  "/home/user/.config/autostart/Sample.desktop"] = 0)
    by (intros H; discriminate H).
  destruct (enable_then_disable_restores Hosts.linux Hosts.sample Hosts.fresh
              _ "/home/user/.config/autostart/Sample.desktop"
              (or_intror (or_intror eq_refl)) Hw Hen eq_refl eq_refl eq_refl Hd)
    as (w2 & Hdis & _ & Hsame).
  exists (snd (enable Hosts.linux Hosts.sample Hosts.fresh)), w2.
  split; [exact Hen|]. split; [exact Hdis|].
  apply Hsame. vm_compute. reflexivity.
Defined.

(** ** The calls of the other branches *)


Lemma disable_snd_trace e self w :
  trace (snd (disable e self w)) = trace (snd (disable_try e self w)).
Proof. unfold disable. apply try_except_print_trace. Qed.

(** The handler leaves the agents as the body left them. *)
Lemma try_except_print_loaded (body : M bool) (msg : exn -> string) w :
  loaded (snd (try_except body (fun ex => print (msg ex) ;;; ret false) w))
  = loaded (snd (body w)).
Proof.
  unfold try_except. destruct (body w) as [[b|ex] w1]; [reflexivity|].
  rewrite is_Exception_all. reflexivity.
Qed.

Lemma loaded_kept_trans a b c :
  loaded_kept a b -> loaded_kept b c -> loaded_kept a c.
Proof. unfold loaded_kept. congruence. Qed.

Lemma loaded_kept_call {A} e c (k : M A) :
  (forall w, loaded (snd (k w)) = loaded w) ->
  post (call e c k) (fun _ => True) loaded_kept.
Proof.
  intros Hk w. unfold call, loaded_kept.
  destruct (e_fault e c); [reflexivity|].
  specialize (Hk (log c w)).
  destruct (k (log c w)) as [[a|ex] w1]; cbn in Hk; auto.
Qed.

Lemma loaded_kept_os_makedirs e d :
  post (os_makedirs e d) (fun _ => True) loaded_kept.
Proof.
  apply loaded_kept_call. intros w. destruct (files w !! d); reflexivity.
Qed.

Lemma loaded_kept_Path_exists e p :
  post (Path_exists e p) (fun _ => True) loaded_kept.
Proof. apply loaded_kept_call. reflexivity. Qed.



Lemma loaded_kept_os_remove e p :
  post (os_remove e p) (fun _ => True) loaded_kept.
Proof.
  apply loaded_kept_call. intros w.
  destruct (files w !! p); [reflexivity|]. case_bool_decide; reflexivity.
Qed.

Lemma post_snd {A} (c : M A) Q R w : post c Q R -> R w (snd (c w)).
Proof.
  intros H. specialize (H w). destruct (c w) as [[a|ex] w1]; [apply H|exact H].
Qed.





Lemma get_startup_location_windows e self w :
  system self = "Windows" ->
  _get_startup_location e self w = (Return (expandvars_startup e), w).
Proof. intros Hs. unfold _get_startup_location. rewrite Hs. reflexivity. Qed.

Lemma disable_try_windows e self w p :
  system self = "Windows" -> artifact e self = Some p ->
  disable_try e self w
  = (found <- Path_exists e p ;;
     (if found : bool then os_remove e p else ret tt) ;;; ret true) w.
Proof.
  intros Hs Hart.
  rewrite (disable_try_resolved e self w _ w p (or_introl Hs)
             (get_startup_location_windows e self w Hs) Hart).
  rewrite Hs. reflexivity.
Qed.

Lemma disable_try_linux e self w d loc :
  system self = "Linux" ->
  location_dir e self = Some d -> location e self = Some loc ->
  disable_try e self w
  = (os_makedirs e d ;;;
     found <- Path_exists e loc ;;
     (if found : bool then os_remove e loc else ret tt) ;;; ret true) w.
Proof.
  intros Hs Hd Hl. unfold disable_try. unfold bind at 1.
  rewrite get_startup_location_eq, Hl, Hd by (rewrite Hs; apply supported_linux).
  rewrite Hs. cbn [String.eqb Ascii.eqb Bool.eqb andb].
  unfold bind, ret.
  destruct (os_makedirs e d w) as [[u|ex] w0]; [|reflexivity].
  destruct (Path_exists e loc w0) as [[[|]|ex] w1]; reflexivity.
Qed.

Lemma within_probe_remove e p :
  within (found <- Path_exists e p ;;
          (if found : bool then os_remove e p else ret tt) ;;; ret true)
    [Stat p; Remove p].
Proof.
  apply (within_bind _ _ [Stat p] [Remove p] (runs_Path_exists e p)).
  intros [|].
  - apply runs_within.
    apply (runs_bind _ _ [Remove p] []); [apply runs_os_remove|].
    intros _. apply runs_ret.
  - apply (within_weaken _ []); [|apply prefix_nil].
    apply runs_within. apply (runs_bind _ _ [] []); intros; apply runs_ret.
Qed.

Lemma loaded_kept_probe_remove e p :
  post (found <- Path_exists e p ;;
        (if found : bool then os_remove e p else ret tt) ;;; ret true)
    (fun _ => True) loaded_kept.
Proof.
  apply (post_bind _ loaded_kept_trans _ _ (fun _ => True));
    [apply loaded_kept_Path_exists|intros found _].
  apply (post_bind _ loaded_kept_trans _ _ (fun _ => True)).
  - apply post_if; [apply loaded_kept_os_remove|].
    apply post_ret; [reflexivity|exact I].
  - intros _ _. apply post_ret; [reflexivity|exact I].
Qed.

(** X6. On Windows and on Linux [disable()] has no unregistration step:
    its calls are the directory of the resolver (on Linux), the probe of
    the artifact and its deletion, in this order and nothing else; it
    starts no program, and the loaded agents are as they were. *)
Theorem disable_without_unregistration
  (e : env) (self : StartupManager) (w : world) (p : string) :
  system self = "Windows" \/ system self = "Linux" ->
  artifact e self = Some p ->
  let calls := match location_dir e self with
               | Some d => [Makedirs d]
               | None => []
               end ++ [Stat p; Remove p] in
  let w' := snd (disable e self w) in
  (exists l, l `prefix_of` calls /\ trace w' = trace w ++ l) /\
  loaded w' = loaded w.
Proof.
  intros Hs Hart calls w'. subst calls w'.
  rewrite disable_snd_trace. unfold disable.
  rewrite try_except_print_loaded.
  destruct Hs as [Hs|Hs].
  - rewrite (location_dir_windows _ _ Hs).
    rewrite (disable_try_windows _ _ _ _ Hs Hart). split.
    + apply within_probe_remove.
    + apply (post_snd _ (fun _ => True) loaded_kept),
        loaded_kept_probe_remove.
  - assert (Hl : location e self = Some p).
    { rewrite artifact_eq in Hart.
      destruct (location e self); [|discriminate].
      rewrite Hs in Hart. exact Hart. }
    destruct (location_has_dir e self p (or_intror Hs) Hl) as [d Hd].
    rewrite Hd, (disable_try_linux _ _ _ d p Hs Hd Hl). split.
    + apply (within_bind _ _ [Makedirs d] [Stat p; Remove p]
               (runs_os_makedirs e d)).
      intros _. apply within_probe_remove.
    + apply (post_snd _ (fun _ => True) loaded_kept).
      apply (post_bind _ loaded_kept_trans _ _ (fun _ => True));
        [apply loaded_kept_os_makedirs|intros _ _].
      apply loaded_kept_probe_remove.
Qed.

(** On Linux, with the entry in place. *)
Lemma disable_without_unregistration_witness :
  let loc := "/home/user/.config/autostart/Sample.desktop" in
  let w1 := snd (enable Hosts.linux Hosts.sample Hosts.fresh) in
  exists l,
    l `prefix_of` [Makedirs "/home/user/.config/autostart"; Stat loc; Remove loc]
    /\ trace (snd (disable Hosts.linux Hosts.sample w1)) = trace w1 ++ l.
Proof.
  intros loc w1.
  exact (proj1 (disable_without_unregistration Hosts.linux Hosts.sample w1 loc
                  (or_intror eq_refl) eq_refl)).
Defined.

(** ** The constructor and the resolver at their limits *)





(** ** A deletion that fails after the unloading *)


